(** * Jarvis voice assistant: a shallow embedding of [arvis_assistant.py]

    The script chains four external capabilities (audio capture, speech to
    text, text generation, text to speech) in a blocking loop.  The
    embedding keeps the control flow of the script as it is written:

    - Python exceptions are an error monad layered over explicit state
      passing ([M]); [try ... finally] is the combinator [try_finally];
    - the file system is a finite map from paths to file contents;
    - every call that leaves the script (device, model, network, console)
      is recorded in a chronological trace of events, and its outcome is
      supplied by a [World] of oracles that may depend on the whole
      history, so that theorems hold for every behaviour of the
      collaborators;
    - Python [str] values are Rocq strings whose characters are read as the
      code points 0..255, with [str.strip] and [str.lower] defined on that
      range. *)

From Stdlib Require Import ZArith List Ascii String Bool Lia.
From stdpp Require Import base gmap strings list fin_maps.

Local Open Scope string_scope.
Local Open Scope Z_scope.
Local Open Scope list_scope.

(** ** Python strings: [str.strip] and [str.lower] on code points 0..255 *)

Module PyStr.

(** Code points for which [str.isspace] holds, below 256:
    U+0009..U+000D, U+001C..U+001F, U+0020, U+0085, U+00A0. *)
Definition isspace (c : ascii) : bool :=
  let n := N_of_ascii c in
  ((9 <=? n) && (n <=? 13) || (28 <=? n) && (n <=? 31)
   || (n =? 32) || (n =? 133) || (n =? 160))%N.

(** Simple lower-case mapping below 256: A..Z and the Latin-1 capitals
    U+00C0..U+00DE (U+00D7, the multiplication sign, excepted) move up by
    32; every other code point is its own lower case. *)
Definition lower_char (c : ascii) : ascii :=
  let n := N_of_ascii c in
  if ((65 <=? n) && (n <=? 90)
      || (192 <=? n) && (n <=? 222) && negb (n =? 215))%N
  then ascii_of_N (n + 32) else c.

Fixpoint lower (s : string) : string :=
  match s with
  | EmptyString => EmptyString
  | String c s' => String (lower_char c) (lower s')
  end.

Fixpoint lstrip (s : string) : string :=
  match s with
  | EmptyString => EmptyString
  | String c s' => if isspace c then lstrip s' else s
  end.

Fixpoint rstrip (s : string) : string :=
  match s with
  | EmptyString => EmptyString
  | String c s' =>
      match rstrip s' with
      | EmptyString => if isspace c then EmptyString else String c EmptyString
      | r => String c r
      end
  end.

Definition strip (s : string) : string := rstrip (lstrip s).

(** Every character of [s] is white space. *)
Fixpoint all_space (s : string) : bool :=
  match s with
  | EmptyString => true
  | String c s' => isspace c && all_space s'
  end.

End PyStr.

(** ** Exceptions, results and the state-and-error monad *)

Inductive exn : Type :=
| KeyboardInterrupt
| SystemExit (code : Z)
| EOFError
| FileNotFoundError (path : string)
| AttributeError (msg : string)
| ValueError (msg : string)
| WaveError (msg : string)
| LibraryError (name : string).

Inductive result (A : Type) : Type :=
| Ok (a : A)
| Raise (e : exn).
Arguments Ok {A} a.
Arguments Raise {A} e.

(** ** Audio data: int16 samples and the WAV container *)

Module Audio.

(** Two's complement wrap of an integer into the int16 range. *)
Definition wrap16 (x : Z) : Z := (x + 32768) mod 65536 - 32768.

Definition int16 (x : Z) : Prop := -32768 <= x <= 32767.

(** The array returned by [sd.rec(frames, channels=..., dtype="int16")]:
    [frames] rows of [channels] int16 samples, filled from the device
    signal. *)
Definition mk_recording (frames channels : nat) (signal : nat -> nat -> Z)
  : list (list Z) :=
  map (fun i => map (fun c => wrap16 (signal i c)) (seq 0 channels))
      (seq 0 frames).

(** Little-endian bytes of one int16 sample. *)
Definition sample_bytes (x : Z) : list Z :=
  [Z.land x 255; Z.land (Z.shiftr x 8) 255].

(** [ndarray.tobytes()]: row-major, two bytes per sample. *)
Definition tobytes (rec : list (list Z)) : list Z :=
  concat (map (fun frame => concat (map sample_bytes frame)) rec).

(** Reading back: bytes to int16 samples, and samples to frames. *)
Definition sample_of_bytes (lo hi : Z) : Z := wrap16 (lo + 256 * hi).

Fixpoint samples_of_bytes (bs : list Z) : list Z :=
  match bs with
  | lo :: hi :: rest => sample_of_bytes lo hi :: samples_of_bytes rest
  | _ => []
  end.

Fixpoint chunks (fuel n : nat) (l : list Z) : list (list Z) :=
  match fuel with
  | O => []
  | S fuel' => take n l :: chunks fuel' n (drop n l)
  end.

(** Frames of [nch] samples each, as a reader of the container sees them. *)
Definition frames_of_bytes (nch : nat) (bs : list Z) : list (list Z) :=
  let samples := samples_of_bytes bs in
  chunks (length samples / nch) nch samples.

(** The writer object of the [wave] module ([Wave_write]). *)
Record Wave_write : Type := {
  nchannels : Z;
  sampwidth : Z;
  framerate : Z;
  nframeswritten : Z;
  data : list Z
}.

Definition wave_open : Wave_write :=
  {| nchannels := 0; sampwidth := 0; framerate := 0;
     nframeswritten := 0; data := [] |}.

Definition setnchannels (n : Z) (w : Wave_write) : result Wave_write :=
  if n <? 1 then Raise (WaveError "bad # of channels")
  else Ok {| nchannels := n; sampwidth := sampwidth w;
             framerate := framerate w;
             nframeswritten := nframeswritten w; data := data w |}.

Definition setsampwidth (n : Z) (w : Wave_write) : result Wave_write :=
  if (n <? 1) || (4 <? n) then Raise (WaveError "bad sample width")
  else Ok {| nchannels := nchannels w; sampwidth := n;
             framerate := framerate w;
             nframeswritten := nframeswritten w; data := data w |}.

Definition setframerate (r : Z) (w : Wave_write) : result Wave_write :=
  if r <=? 0 then Raise (WaveError "bad frame rate")
  else Ok {| nchannels := nchannels w; sampwidth := sampwidth w;
             framerate := r;
             nframeswritten := nframeswritten w; data := data w |}.

(** [writeframes]: the header must be complete; the frame count grows by
    [len(data) // (sampwidth * nchannels)]. *)
Definition writeframes (bs : list Z) (w : Wave_write) : result Wave_write :=
  if nchannels w =? 0 then Raise (WaveError "# channels not specified")
  else if sampwidth w =? 0 then Raise (WaveError "sample width not specified")
  else if framerate w =? 0 then Raise (WaveError "sampling rate not specified")
  else Ok {| nchannels := nchannels w; sampwidth := sampwidth w;
             framerate := framerate w;
             nframeswritten :=
               nframeswritten w
               + Z.of_nat (length bs) / (sampwidth w * nchannels w);
             data := data w ++ bs |}.

End Audio.

(** ** Files, events, state *)

Inductive file : Type :=
| EmptyFile
| WavFile (w : Audio.Wave_write).

(** One entry per call that leaves the script, in the order of the calls. *)
Inductive event : Type :=
| EvTtsInit
| EvConfigure (api_key : option string)
| EvGenerativeModel (name : string)
| EvParseArgs
| EvLoadWhisper
| EvInput (prompt : string)
| EvRec (frames samplerate channels : Z) (device : option Z)
| EvWait
| EvTempFile
| EvWaveOpen (path : string)
| EvTranscribe (path : string)
| EvGenerate (prompt : string)
| EvSay (text : string)
| EvRunAndWait
| EvRemove (path : string).

Record State : Type := {
  fs : gmap string file;
  trace : list event;
  stdout : list string;
  whisper_model : bool
}.

Definition M (A : Type) : Type := State -> result A * State.

Definition ret {A} (a : A) : M A := fun st => (Ok a, st).

Definition raise {A} (e : exn) : M A := fun st => (Raise e, st).

Definition bind {A B} (m : M A) (k : A -> M B) : M B :=
  fun st =>
    match m st with
    | (Ok a, st') => k a st'
    | (Raise e, st') => (Raise e, st')
    end.

(** [try: body finally: fin].  The [finally] block runs on every exit of
    the body; an exception raised by the block itself replaces the
    outcome of the body. *)
Definition try_finally {A} (body : M A) (fin : M unit) : M A :=
  fun st =>
    match body st with
    | (r, st') =>
        match fin st' with
        | (Ok _, st'') => (r, st'')
        | (Raise e, st'') => (Raise e, st'')
        end
    end.

(** The monad is presented through stdpp's [MRet] and [MBind] classes, so
    that sequencing is written [x ← m; k] and [m ;; k]. *)
#[global] Instance M_ret : MRet M := @ret.
#[global] Instance M_bind : MBind M := fun A B k m => bind m k.

Definition lift {A} (r : result A) : M A := fun st => (r, st).

Definition emit (e : event) : M unit :=
  fun st => (Ok tt, {| fs := fs st; trace := trace st ++ [e];
                       stdout := stdout st;
                       whisper_model := whisper_model st |}).

Definition print (line : string) : M unit :=
  fun st => (Ok tt, {| fs := fs st; trace := trace st;
                       stdout := stdout st ++ [line];
                       whisper_model := whisper_model st |}).


(** [try: body except handled: handler]. *)
Definition try_except {A} (body : M A) (handled : exn -> bool)
    (handler : M A) : M A :=
  fun st =>
    match body st with
    | (Ok a, st') => (Ok a, st')
    | (Raise e, st') => if handled e then handler st' else (Raise e, st')
    end.

(** A call that leaves the script: the event is recorded, then the
    collaborator answers, knowing everything that happened before. *)
Definition gets {A} (f : State -> A) : M A := fun st => (Ok (f st), st).

Definition history : M (list event) := gets trace.

Definition call {A} (e : event) (oracle : list event -> result A) : M A :=
  h ← history; emit e;; lift (oracle h).

(** ** The collaborators *)

(** What the operator does at one [input()] prompt. *)
Inductive console : Type :=
| Line (s : string)
| CtrlC
| Eof.

Record World : Type := {
  environ : gmap string string;
  pyttsx3_init : result unit;
  genai_configure : option string -> result unit;
  genai_GenerativeModel : string -> result unit;
  parse_args : result (option Z);
  whisper_load_model : result unit;
  sd_rec : list event -> Z -> Z -> Z -> option Z -> result (nat -> nat -> Z);
  sd_wait : list event -> result unit;
  NamedTemporaryFile : list event -> result string;
  (** [wave.open(path, "wb")] opening the file *)
  wave_open_file : list event -> string -> result unit;
  (** writing the header and the frames through to the close of the writer:
      [None] when the container reaches the disk, [Some (e, f)] when an
      I/O error [e] interrupts it and leaves [f] at the path *)
  wave_flush : list event -> string -> option (exn * file);
  whisper_transcribe : list event -> string -> option file -> result string;
  (** the outer result is the call, the inner one the [.text] accessor *)
  generate_content : list event -> string -> result (result string);
  tts_say : list event -> string -> result unit;
  tts_runAndWait : list event -> result unit
}.

(** ** The file system operations the script uses *)

Definition set_fs (files : gmap string file) : M unit :=
  fun st => (Ok tt, {| fs := files; trace := trace st; stdout := stdout st;
                       whisper_model := whisper_model st |}).

Definition os_path_exists (path : string) : M bool :=
  files ← gets fs; mret (bool_decide (is_Some (files !! path))).

Definition os_remove (path : string) : M unit :=
  emit (EvRemove path);;
  files ← gets fs;
  match files !! path with
  | Some _ => set_fs (delete path files)
  | None => raise (FileNotFoundError path)
  end.

Definition write_file (path : string) (f : file) : M unit :=
  files ← gets fs; set_fs (<[path := f]> files).

Definition read_file (path : string) : M (option file) :=
  files ← gets fs; mret (files !! path).

(** ** The script *)

Definition nl : string := String (ascii_of_N 10) EmptyString.

Section Script.

Variable w : World.

(** Lines 15-19: module level initialisation. *)
Definition module_init : M unit :=
  call EvTtsInit (fun _ => pyttsx3_init w);;
  call (EvConfigure (environ w !! "GOOGLE_API_KEY"))
       (fun _ => genai_configure w (environ w !! "GOOGLE_API_KEY"));;
  call (EvGenerativeModel "gemini-1.5-flash")
       (fun _ => genai_GenerativeModel w "gemini-1.5-flash").

(** [sd.rec(frames, samplerate=, channels=, dtype="int16", device=)]. *)
Definition sd_rec_call (frames samplerate channels : Z) (device : option Z)
  : M (list (list Z)) :=
  h ← history;
  emit (EvRec frames samplerate channels device);;
  if frames <? 0 then raise (ValueError "negative dimensions are not allowed")
  else
    signal ← lift (sd_rec w h frames samplerate channels device);
    mret (Audio.mk_recording (Z.to_nat frames) (Z.to_nat channels) signal).

Definition record_audio (device_index : option Z)
    (samplerate channels duration : Z) : M string :=
  print "Listening for speech... (pause to stop)";;
  recording ← sd_rec_call (duration * samplerate) samplerate channels
                          device_index;
  call EvWait (sd_wait w);;
  wav_path ← call EvTempFile (NamedTemporaryFile w);
  write_file wav_path EmptyFile;;
  call (EvWaveOpen wav_path) (fun h => wave_open_file w h wav_path);;
  wf ← lift (Audio.setnchannels channels Audio.wave_open);
  wf ← lift (Audio.setsampwidth 2 wf);
  wf ← lift (Audio.setframerate samplerate wf);
  wf ← lift (Audio.writeframes (Audio.tobytes recording) wf);
  h ← history;
  match wave_flush w h wav_path with
  | None => write_file wav_path (WavFile wf);; mret wav_path
  | Some (e, leftover) => write_file wav_path leftover;; raise e
  end.

Definition load_whisper_model : M unit :=
  print "Loading Whisper model...";;
  call EvLoadWhisper (fun _ => whisper_load_model w).

Definition set_whisper_model : M unit :=
  fun st => (Ok tt, {| fs := fs st; trace := trace st; stdout := stdout st;
                       whisper_model := true |}).

Definition transcribe_whisper_local (audio_path : string) : M string :=
  print "Transcribing with local Whisper...";;
  loaded ← gets whisper_model;
  if loaded : bool then
    f ← read_file audio_path;
    call (EvTranscribe audio_path)
         (fun h => whisper_transcribe w h audio_path f)
  else raise (AttributeError "'NoneType' object has no attribute 'transcribe'").

Definition ask_gemini (prompt : string) : M string :=
  response ← call (EvGenerate prompt) (fun h => generate_content w h prompt);
  text ← lift response;
  mret (PyStr.strip text).

Definition speak (text : string) : M unit :=
  print ("[Jarvis]: " +:+ text);;
  call (EvSay text) (fun h => tts_say w h text);;
  call EvRunAndWait (tts_runAndWait w).

Definition wake_prompt : string := "Type 'Jarvis' to simulate wake word: ".

Definition input (prompt : string) (ev : console) : M string :=
  print prompt;;
  emit (EvInput prompt);;
  match ev with
  | Line s => mret s
  | CtrlC => raise KeyboardInterrupt
  | Eof => raise EOFError
  end.

Definition is_KeyboardInterrupt (e : exn) : bool :=
  match e with KeyboardInterrupt => true | _ => false end.

Definition sys_exit {A} (code : Z) : M A := raise (SystemExit code).

Definition detect_wake_word (ev : console) : M bool :=
  try_except
    (user_input ← input wake_prompt ev;
     mret (String.eqb (PyStr.lower (PyStr.strip user_input)) "jarvis"))
    is_KeyboardInterrupt
    (print (nl +:+ "Exiting...");; sys_exit 0).

(** Lines 113-122: the body of the [try]. *)
Definition pipeline (wav_path : string) : M unit :=
  user_text ← transcribe_whisper_local wav_path;
  print ("You said: " +:+ user_text);;
  reply ← ask_gemini user_text;
  print ("[Jarvis Answer]: " +:+ reply);;
  speak reply.

(** Lines 124-125: the [finally] block. *)
Definition release (wav_path : string) : M unit :=
  present ← os_path_exists wav_path;
  if present : bool then os_remove wav_path else mret tt.

(** Lines 109-125: one iteration of [while True].  The glyph U+1F50A that
    ends the first message lies outside the modelled character range and
    is left out of the printed text. *)
Definition turn (device : option Z) (ev : console) : M unit :=
  woke ← detect_wake_word ev;
  if woke : bool then
    print "Wake word detected! ";;
    wav_path ← record_audio device 16000 1 10;
    try_finally (pipeline wav_path) (release wav_path)
  else mret tt.

(** [while True]: one iteration per operator action; once the console is
    exhausted, [input()] meets the end of the stream. *)
Fixpoint main_loop (device : option Z) (inputs : list console) : M unit :=
  match inputs with
  | [] => turn device Eof
  | ev :: rest => turn device ev;; main_loop device rest
  end.

Definition banner : string :=
  "------------------------------------------------------------".

Definition main (inputs : list console) : M unit :=
  device ← call EvParseArgs (fun _ => parse_args w);
  print (nl +:+ banner);;
  print "Jarvis is listening. Say the wake word: 'Jarvis'. Ctrl+C to exit.";;
  print banner;;
  load_whisper_model;;
  set_whisper_model;;
  main_loop device inputs.

(** Running the file as a script. *)
Definition program (inputs : list console) : M unit :=
  module_init;; main inputs.

End Script.

(** How the interpreter ends for a given outcome of the script. *)
Inductive termination : Type :=
| ExitCode (code : Z)
| Traceback (e : exn).

Definition terminate (r : result unit) : termination :=
  match r with
  | Ok _ => ExitCode 0
  | Raise (SystemExit code) => ExitCode code
  | Raise e => Traceback e
  end.

Definition boot (files : gmap string file) : State :=
  {| fs := files; trace := []; stdout := []; whisper_model := false |}.

(** ** Reading the trace *)

Definition is_capture (e : event) : bool :=
  match e with EvRec _ _ _ _ => true | _ => false end.
Definition is_transcription (e : event) : bool :=
  match e with EvTranscribe _ => true | _ => false end.
Definition is_inference (e : event) : bool :=
  match e with EvGenerate _ => true | _ => false end.
Definition is_playback (e : event) : bool :=
  match e with EvSay _ | EvRunAndWait => true | _ => false end.

(** Calls to one of the four collaborators. *)
Definition is_collaborator (e : event) : bool :=
  is_capture e || is_transcription e || is_inference e || is_playback e.

Definition calls (p : event -> bool) (st : State) : list event :=
  List.filter p (trace st).

(** ** Concrete worlds, for evaluating the script *)

Module Worlds.

(** Every collaborator answers; the credential is set; the operator's
    question is transcribed as [heard] and answered by [answer]. *)
Definition make (env : gmap string string)
    (configure : option string -> result unit)
    (tmp : result string)
    (heard : result string)
    (answer : option string -> result (result string))
    (said : result unit) : World :=
  {| environ := env;
     pyttsx3_init := Ok tt;
     genai_configure := configure;
     genai_GenerativeModel := fun _ => Ok tt;
     parse_args := Ok None;
     whisper_load_model := Ok tt;
     sd_rec := fun _ _ _ _ _ => Ok (fun _ c => 40000 + Z.of_nat c);
     sd_wait := fun _ => Ok tt;
     NamedTemporaryFile := fun _ => tmp;
     wave_open_file := fun _ _ => Ok tt;
     wave_flush := fun _ _ => None;
     whisper_transcribe := fun _ _ _ => heard;
     generate_content := fun _ _ => answer (env !! "GOOGLE_API_KEY");
     tts_say := fun _ _ => said;
     tts_runAndWait := fun _ => Ok tt |}.

Definition with_key : gmap string string :=
  {[ "GOOGLE_API_KEY" := "secret" ]}.

Definition tmp0 : string := "/tmp/tmp0.wav".

(** The scenario of the specification: everything works. *)
Definition france : World :=
  make with_key (fun _ => Ok tt) (Ok tmp0)
       (Ok "what is the capital of france")
       (fun _ => Ok (Ok "Paris.")) (Ok tt).

(** Transcription fails. *)
Definition deaf : World :=
  make with_key (fun _ => Ok tt) (Ok tmp0)
       (Raise (LibraryError "TranscriptionError"))
       (fun _ => Ok (Ok "Paris.")) (Ok tt).

(** Transcription hears nothing and returns the empty text. *)
Definition silence : World :=
  make with_key (fun _ => Ok tt) (Ok tmp0) (Ok "")
       (fun _ => Ok (Ok "Say something.")) (Ok tt).

(** The text generation backend is unreachable. *)
Definition offline : World :=
  make with_key (fun _ => Ok tt) (Ok tmp0) (Ok "hello")
       (fun _ => Raise (LibraryError "InferenceError")) (Ok tt).

(** No credential in the environment; configuring without a key is
    accepted, and the backend refuses the first request. *)
Definition no_credential : World :=
  make ∅ (fun _ => Ok tt) (Ok tmp0) (Ok "hello")
       (fun key => match key with
                   | Some _ => Ok (Ok "Hi.")
                   | None => Raise (LibraryError "InferenceError")
                   end)
       (Ok tt).

(** The temporary file cannot be created. *)
Definition disk_full : World :=
  make with_key (fun _ => Ok tt) (Raise (LibraryError "ArtifactError"))
       (Ok "hello") (fun _ => Ok (Ok "Hi.")) (Ok tt).

(** A device whose signal rises with the frame number and leaves the
    int16 range, so that the wrap-around of the samples shows. *)
Definition ramp : World :=
  {| environ := with_key;
     pyttsx3_init := Ok tt;
     genai_configure := fun _ => Ok tt;
     genai_GenerativeModel := fun _ => Ok tt;
     parse_args := Ok (Some 1);
     whisper_load_model := Ok tt;
     sd_rec := fun _ _ _ _ _ => Ok (fun i c => Z.of_nat i * 20000 - Z.of_nat c);
     sd_wait := fun _ => Ok tt;
     NamedTemporaryFile := fun _ => Ok tmp0;
     wave_open_file := fun _ _ => Ok tt;
     wave_flush := fun _ _ => None;
     whisper_transcribe := fun _ _ _ => Ok "hello";
     generate_content := fun _ _ => Ok (Ok "Hi.");
     tts_say := fun _ _ => Ok tt;
     tts_runAndWait := fun _ => Ok tt |}.

End Worlds.

(** * Proofs *)

(** ** Running the monad *)

Lemma bind_run {A B} (m : M A) (k : A -> M B) st :
  (m ≫= k) st =
  match m st with
  | (Ok a, st') => k a st'
  | (Raise e, st') => (Raise e, st')
  end.
Proof. reflexivity. Qed.

(** Unfolds the primitive operations of the monad. *)
Ltac unfold_monad :=
  cbv [mbind M_bind bind mret M_ret ret raise lift emit print gets history
       set_fs call sys_exit try_finally try_except] in *.

(** ** The [finally] block *)

Lemma release_run path st :
  release path st =
  match fs st !! path with
  | Some _ =>
      (Ok tt, {| fs := delete path (fs st);
                 trace := trace st ++ [EvRemove path];
                 stdout := stdout st;
                 whisper_model := whisper_model st |})
  | None => (Ok tt, st)
  end.
Proof.
  unfold release, os_path_exists, os_remove. unfold_monad. simpl.
  destruct (fs st !! path) as [f|] eqn:E; simpl; rewrite ?E; reflexivity.
Qed.

Lemma release_ok path st : fst (release path st) = Ok tt.
Proof. rewrite release_run. destruct (fs st !! path); reflexivity. Qed.

Lemma release_absent_after path st : fs (snd (release path st)) !! path = None.
Proof.
  rewrite release_run. destruct (fs st !! path) eqn:E; simpl; [|exact E].
  apply lookup_delete_eq.
Qed.

(** C8. Releasing the artifact is idempotent: the [finally] block never
    raises; after it the path is absent; run on a state where the path is
    absent (never created, or already released) it returns normally and
    leaves the state as it was. *)
Theorem release_idempotent (path : string) (st : State) :
  fst (release path st) = Ok tt
  /\ fs (snd (release path st)) !! path = None
  /\ release path (snd (release path st)) = (Ok tt, snd (release path st))
  /\ (fs st !! path = None -> release path st = (Ok tt, st)).
Proof.
  assert (Habs : forall s, fs s !! path = None -> release path s = (Ok tt, s)).
  { intros s Hs. rewrite release_run, Hs. reflexivity. }
  split; [apply release_ok|]. split; [apply release_absent_after|].
  split; [|apply Habs]. apply Habs, release_absent_after.
Qed.

(** ** What a computation adds to the trace *)

(** [emits q m]: running [m] only appends to the trace, and every event it
    appends satisfies [q]. *)
Definition emits {A} (q : event -> bool) (m : M A) : Prop :=
  forall st, exists tail,
    trace (snd (m st)) = trace st ++ tail /\ forallb q tail = true.

Lemma emits_silent {A} q (m : M A) :
  (forall st, trace (snd (m st)) = trace st) -> emits q m.
Proof.
  intros H st. exists []. rewrite H, app_nil_r. split; reflexivity.
Qed.

Lemma emits_weaken {A} (q q' : event -> bool) (m : M A) :
  (forall e, q e = true -> q' e = true) -> emits q m -> emits q' m.
Proof.
  intros Hq Hm st. destruct (Hm st) as (tail & Ht & Hall).
  exists tail. split; [exact Ht|]. clear Ht.
  induction tail as [|e tail IH]; [reflexivity|].
  simpl in *. apply andb_prop in Hall as [He Hall].
  rewrite (Hq e He). apply IH, Hall.
Qed.

(** Events of a kind [p] that [q] excludes are not added. *)
Lemma emits_calls {A} (q p : event -> bool) (m : M A) st :
  (forall e, q e = true -> p e = false) -> emits q m ->
  calls p (snd (m st)) = calls p st.
Proof.
  intros Hq Hm. destruct (Hm st) as (tail & Ht & Hall).
  unfold calls. rewrite Ht, List.filter_app. clear Ht.
  replace (List.filter p tail) with (@nil event); [apply app_nil_r|].
  symmetry. induction tail as [|e tail IH]; [reflexivity|].
  simpl in *. apply andb_prop in Hall as [He Hall].
  rewrite (Hq e He). apply IH, Hall.
Qed.

Section Emits.

Context {A B : Type} (q : event -> bool).

Lemma emits_ret (a : A) : emits q (mret a).
Proof. apply emits_silent. reflexivity. Qed.

Lemma emits_raise e : emits q (raise e : M A).
Proof. apply emits_silent. reflexivity. Qed.

Lemma emits_lift (r : result A) : emits q (lift r).
Proof. apply emits_silent. reflexivity. Qed.

Lemma emits_gets (f : State -> A) : emits q (gets f).
Proof. apply emits_silent. reflexivity. Qed.

Lemma emits_print line : emits q (print line).
Proof. apply emits_silent. reflexivity. Qed.

Lemma emits_set_fs files : emits q (set_fs files).
Proof. apply emits_silent. reflexivity. Qed.

Lemma emits_emit e : q e = true -> emits q (emit e).
Proof.
  intros He st. exists [e]. simpl. rewrite He. split; reflexivity.
Qed.

Lemma emits_bind (m : M A) (k : A -> M B) :
  emits q m -> (forall a, emits q (k a)) -> emits q (m ≫= k).
Proof.
  intros Hm Hk st. rewrite bind_run.
  destruct (Hm st) as (t1 & Ht1 & Hq1).
  destruct (m st) as [[a|e] st']; simpl in *; [|eauto].
  destruct (Hk a st') as (t2 & Ht2 & Hq2).
  exists (t1 ++ t2). rewrite Ht2, Ht1, app_assoc, forallb_app, Hq1, Hq2.
  split; reflexivity.
Qed.

Lemma emits_try_finally (body : M A) (fin : M unit) :
  emits q body -> emits q fin -> emits q (try_finally body fin).
Proof.
  intros Hb Hf st. unfold try_finally.
  destruct (Hb st) as (t1 & Ht1 & Hq1).
  destruct (body st) as [r st']. simpl in *.
  destruct (Hf st') as (t2 & Ht2 & Hq2).
  exists (t1 ++ t2). rewrite forallb_app, Hq1, Hq2.
  destruct (fin st') as [[u|e] st'']; simpl in *;
    rewrite Ht2, Ht1, app_assoc; split; reflexivity.
Qed.

Lemma emits_try_except (body handler : M A) handled :
  emits q body -> emits q handler ->
  emits q (try_except body handled handler).
Proof.
  intros Hb Hh st. unfold try_except.
  destruct (Hb st) as (t1 & Ht1 & Hq1).
  destruct (body st) as [[a|e] st']; simpl in *; [eauto|].
  destruct (handled e); [|eauto].
  destruct (Hh st') as (t2 & Ht2 & Hq2).
  exists (t1 ++ t2). rewrite Ht2, Ht1, app_assoc, forallb_app, Hq1, Hq2.
  split; reflexivity.
Qed.

End Emits.

Lemma emits_call {A} q e (oracle : list event -> result A) :
  q e = true -> emits q (call e oracle).
Proof.
  intros He. unfold call, history.
  apply emits_bind; [apply emits_gets|]. intros h.
  apply emits_bind; [apply emits_emit, He|]. intros _. apply emits_lift.
Qed.

(** Splits a computation along its binds and closes the leaves. *)
Ltac emits_step :=
  match goal with
  | |- emits _ (_ ≫= _) => apply emits_bind; [|intros ?]
  | |- emits _ (mret _) => apply emits_ret
  | |- emits _ (raise _) => apply emits_raise
  | |- emits _ (sys_exit _) => apply emits_raise
  | |- emits _ (lift _) => apply emits_lift
  | |- emits _ (gets _) => apply emits_gets
  | |- emits _ history => apply emits_gets
  | |- emits _ (print _) => apply emits_print
  | |- emits _ (set_fs _) => apply emits_set_fs
  | |- emits _ (emit _) => apply emits_emit; reflexivity
  | |- emits _ (call _ _) => apply emits_call; reflexivity
  | |- emits _ (try_finally _ _) => apply emits_try_finally
  | |- emits _ (try_except _ _ _) => apply emits_try_except
  | |- emits _ (if ?b then _ else _) => destruct b
  | |- emits _ (match ?x with _ => _ end) => destruct x
  end.

Ltac emits_auto := repeat emits_step.

(** The events each function of the script can add. *)
Definition is_input (e : event) : bool :=
  match e with EvInput _ => true | _ => false end.
Definition is_removal (e : event) : bool :=
  match e with EvRemove _ => true | _ => false end.
Definition is_recording (e : event) : bool :=
  match e with
  | EvRec _ _ _ _ | EvWait | EvTempFile | EvWaveOpen _ => true
  | _ => false
  end.

Section EmitsScript.

Variable w : World.

Lemma emits_detect_wake_word ev : emits is_input (detect_wake_word ev).
Proof. unfold detect_wake_word, input. emits_auto. Qed.

Lemma emits_release path : emits is_removal (release path).
Proof. unfold release, os_path_exists, os_remove. emits_auto. Qed.

Lemma emits_record_audio device R C D :
  emits is_recording (record_audio w device R C D).
Proof.
  unfold record_audio, sd_rec_call, write_file. emits_auto.
Qed.

Lemma emits_transcribe path :
  emits is_transcription (transcribe_whisper_local w path).
Proof. unfold transcribe_whisper_local, read_file. emits_auto. Qed.

Lemma emits_ask_gemini prompt : emits is_inference (ask_gemini w prompt).
Proof. unfold ask_gemini. emits_auto. Qed.

Lemma emits_speak text : emits is_playback (speak w text).
Proof. unfold speak. emits_auto. Qed.

End EmitsScript.

(** ** One turn *)

(** The state in which the operator's line has been read. *)
Definition listened (ev : console) (st : State) : State :=
  snd (detect_wake_word ev st).

(** The state in which the recording has been attempted. *)
Definition captured (w : World) (device : option Z) (st0 : State) : State :=
  snd (record_audio w device 16000 1 10
         (snd (print "Wake word detected! " st0))).

Lemma try_finally_release {A} (body : M A) path st :
  try_finally body (release path) st =
  (fst (body st), snd (release path (snd (body st)))).
Proof.
  unfold try_finally. destruct (body st) as [r st']. simpl.
  pose proof (release_ok path st') as Hok.
  destruct (release path st') as [[u|e] st'']; simpl in *; congruence.
Qed.

Lemma turn_asleep w device ev st :
  fst (detect_wake_word ev st) = Ok false ->
  turn w device ev st = (Ok tt, listened ev st).
Proof.
  intros H. unfold turn, listened. rewrite bind_run.
  destruct (detect_wake_word ev st) as [r st0]. simpl in *. subst r.
  reflexivity.
Qed.

Lemma turn_not_captured w device ev st e :
  fst (detect_wake_word ev st) = Ok true ->
  fst (record_audio w device 16000 1 10
         (snd (print "Wake word detected! " (listened ev st)))) = Raise e ->
  turn w device ev st = (Raise e, captured w device (listened ev st)).
Proof.
  intros H0 H1. unfold turn, captured, listened in *. rewrite bind_run.
  destruct (detect_wake_word ev st) as [r st0]. simpl in *. subst r.
  rewrite bind_run. simpl. rewrite bind_run.
  destruct (record_audio _ _ _ _ _ _) as [r st1]. simpl in *. subst r.
  reflexivity.
Qed.

Lemma turn_woke w device ev st path :
  fst (detect_wake_word ev st) = Ok true ->
  fst (record_audio w device 16000 1 10
         (snd (print "Wake word detected! " (listened ev st)))) = Ok path ->
  turn w device ev st =
  try_finally (pipeline w path) (release path)
              (captured w device (listened ev st)).
Proof.
  intros H0 H1. unfold turn, captured, listened in *. rewrite bind_run.
  destruct (detect_wake_word ev st) as [r st0]. simpl in *. subst r.
  rewrite bind_run. simpl. rewrite bind_run.
  destruct (record_audio _ _ _ _ _ _) as [r st1]. simpl in *. subst r.
  reflexivity.
Qed.

(** C1. In every turn in which the wake word was given and the capture
    returned an artifact path, that path is absent from the file system when
    the turn is left, whatever transcription, inference and playback did;
    the outcome of the turn is the outcome of the three stages, so an
    exception of theirs leaves the turn after the deletion. *)
Theorem artifact_deleted_on_every_exit
    (w : World) (device : option Z) (ev : console) (st : State)
    (path : string) :
  fst (detect_wake_word ev st) = Ok true ->
  fst (record_audio w device 16000 1 10
         (snd (print "Wake word detected! " (listened ev st)))) = Ok path ->
  fs (snd (turn w device ev st)) !! path = None
  /\ fst (turn w device ev st)
     = fst (pipeline w path (captured w device (listened ev st))).
Proof.
  intros H0 H1. rewrite (turn_woke _ _ _ _ _ H0 H1), try_finally_release.
  simpl. split; [apply release_absent_after | reflexivity].
Qed.

(** The state a freshly started [main] reaches before its first turn, given
    the files already on disk. *)
Definition ready (files : gmap string file) : State :=
  {| fs := files; trace := []; stdout := []; whisper_model := true |}.

Lemma artifact_deleted_on_every_exit_witness :
  fs (snd (turn Worlds.deaf None (Line "jarvis") (ready ∅))) !! Worlds.tmp0
  = None
  /\ fst (turn Worlds.deaf None (Line "jarvis") (ready ∅))
     = fst (pipeline Worlds.deaf Worlds.tmp0
              (captured Worlds.deaf None (listened (Line "jarvis") (ready ∅)))).
Proof.
  apply (artifact_deleted_on_every_exit Worlds.deaf None (Line "jarvis")
           (ready ∅) Worlds.tmp0); vm_compute; reflexivity.
Defined.

(** ** Which calls a turn makes *)

Lemma calls_print p line st : calls p (snd (print line st)) = calls p st.
Proof. reflexivity. Qed.

Lemma calls_listened p ev st :
  (forall e, is_input e = true -> p e = false) ->
  calls p (listened ev st) = calls p st.
Proof.
  intros Hp. unfold listened.
  apply (emits_calls is_input); [exact Hp | apply emits_detect_wake_word].
Qed.

Lemma calls_captured p w device st0 :
  (forall e, is_recording e = true -> p e = false) ->
  calls p (captured w device st0) = calls p st0.
Proof.
  intros Hp. unfold captured.
  rewrite (emits_calls is_recording p); [reflexivity | exact Hp |].
  apply emits_record_audio.
Qed.

Lemma calls_released p path st :
  (forall e, is_removal e = true -> p e = false) ->
  calls p (snd (release path st)) = calls p st.
Proof.
  intros Hp. apply (emits_calls is_removal); [exact Hp | apply emits_release].
Qed.

(** Closes the side conditions "events of this kind are not of that kind". *)
Ltac kinds :=
  let e := fresh "e" in intros e; destruct e; cbv; intros; congruence.

Lemma pipeline_run w path st1 :
  pipeline w path st1 =
  match transcribe_whisper_local w path st1 with
  | (Ok text, st2) =>
      match ask_gemini w text (snd (print ("You said: " +:+ text) st2)) with
      | (Ok reply, st3) =>
          speak w reply (snd (print ("[Jarvis Answer]: " +:+ reply) st3))
      | (Raise e, st3) => (Raise e, st3)
      end
  | (Raise e, st2) => (Raise e, st2)
  end.
Proof.
  unfold pipeline. rewrite bind_run.
  destruct (transcribe_whisper_local w path st1) as [[text|e] st2];
    [|reflexivity].
  rewrite bind_run. simpl. rewrite bind_run.
  destruct (ask_gemini _ _ _) as [[reply|e] st3]; reflexivity.
Qed.

Lemma main_loop_cons w device ev rest st :
  main_loop w device (ev :: rest) st =
  match turn w device ev st with
  | (Ok _, st') => main_loop w device rest st'
  | (Raise e, st') => (Raise e, st')
  end.
Proof. reflexivity. Qed.

(** C7. In every turn that reaches the inference call, if [ask_gemini]
    raises then the turn ends with that exception and no call to the
    playback collaborator ([say], [runAndWait]) was made during it. *)
Theorem failed_inference_skips_playback
    (w : World) (device : option Z) (ev : console) (st : State)
    (path text : string) (e : exn) :
  fst (detect_wake_word ev st) = Ok true ->
  fst (record_audio w device 16000 1 10
         (snd (print "Wake word detected! " (listened ev st)))) = Ok path ->
  fst (transcribe_whisper_local w path (captured w device (listened ev st)))
  = Ok text ->
  fst (ask_gemini w text
         (snd (print ("You said: " +:+ text)
                 (snd (transcribe_whisper_local w path
                         (captured w device (listened ev st)))))))
  = Raise e ->
  fst (turn w device ev st) = Raise e
  /\ calls is_playback (snd (turn w device ev st)) = calls is_playback st.
Proof.
  intros H0 H1 H2 H3.
  rewrite (turn_woke _ _ _ _ _ H0 H1), try_finally_release. simpl.
  rewrite pipeline_run.
  pose proof (emits_calls is_transcription is_playback
                (transcribe_whisper_local w path)
                (captured w device (listened ev st))) as Ht.
  destruct (transcribe_whisper_local w path _) as [r2 st2].
  cbn [fst snd] in H2, H3, Ht. subst r2.
  pose proof (emits_calls is_inference is_playback (ask_gemini w text)
                (snd (print ("You said: " +:+ text) st2))) as Ha.
  destruct (ask_gemini w text _) as [r3 st3]. cbn [fst snd] in H3, Ha.
  subst r3. cbn [fst snd]. split; [reflexivity|].
  rewrite calls_released by kinds.
  rewrite Ha by (kinds || apply emits_ask_gemini). rewrite calls_print.
  rewrite Ht by (kinds || apply emits_transcribe).
  rewrite calls_captured by kinds.
  apply calls_listened. kinds.
Qed.

Lemma failed_inference_skips_playback_witness :
  fst (turn Worlds.offline None (Line "jarvis") (ready ∅))
  = Raise (LibraryError "InferenceError")
  /\ calls is_playback (snd (turn Worlds.offline None (Line "jarvis") (ready ∅)))
     = calls is_playback (ready ∅).
Proof.
  apply (failed_inference_skips_playback Worlds.offline None (Line "jarvis")
           (ready ∅) Worlds.tmp0 "hello"); vm_compute; reflexivity.
Defined.

(** C2, as the specification states it, fails: when transcription raises,
    the turn does not return to the head of the loop.  The exception leaves
    [main], the interpreter ends with a traceback, and the second wake
    line typed by the operator is never read. *)
Lemma stage_failure_not_contained :
  fst (turn Worlds.deaf None (Line "jarvis") (ready ∅))
  = Raise (LibraryError "TranscriptionError")
  /\ terminate
       (fst (program Worlds.deaf [Line "jarvis"; Line "jarvis"; CtrlC]
               (boot ∅)))
     = Traceback (LibraryError "TranscriptionError")
  /\ calls is_input
       (snd (program Worlds.deaf [Line "jarvis"; Line "jarvis"; CtrlC]
               (boot ∅)))
     = [EvInput wake_prompt].
Proof. vm_compute. repeat split. Qed.

(** C2, amended.  When transcription, inference or playback raises in a
    turn, the artifact is deleted and the exception then leaves the turn
    uncaught: the loop ends with it, in the state in which the turn ended,
    and none of the remaining operator input is read. *)
Theorem stage_failure_ends_the_loop
    (w : World) (device : option Z) (ev : console) (rest : list console)
    (st : State) (path : string) (e : exn) :
  fst (detect_wake_word ev st) = Ok true ->
  fst (record_audio w device 16000 1 10
         (snd (print "Wake word detected! " (listened ev st)))) = Ok path ->
  fst (pipeline w path (captured w device (listened ev st))) = Raise e ->
  main_loop w device (ev :: rest) st = (Raise e, snd (turn w device ev st))
  /\ fs (snd (turn w device ev st)) !! path = None
  /\ calls is_input (snd (turn w device ev st))
     = calls is_input (listened ev st).
Proof.
  intros H0 H1 H2.
  destruct (artifact_deleted_on_every_exit w device ev st path H0 H1)
    as [Hgone Hout].
  rewrite H2 in Hout. split; [|split; [exact Hgone|]].
  - rewrite main_loop_cons.
    destruct (turn w device ev st) as [r st']. simpl in Hout. subst r.
    reflexivity.
  - rewrite (turn_woke _ _ _ _ _ H0 H1), try_finally_release.
    cbn [fst snd]. rewrite calls_released by kinds.
    assert (Hpipe : emits is_collaborator (pipeline w path)).
    { unfold pipeline.
      apply emits_bind;
        [apply (emits_weaken is_transcription);
         [kinds | apply emits_transcribe]|].
      intros text. apply emits_bind; [apply emits_print|]. intros _.
      apply emits_bind;
        [apply (emits_weaken is_inference); [kinds | apply emits_ask_gemini]|].
      intros reply. apply emits_bind; [apply emits_print|]. intros _.
      apply (emits_weaken is_playback); [kinds | apply emits_speak]. }
    rewrite (emits_calls is_collaborator is_input (pipeline w path))
      by (kinds || exact Hpipe).
    apply calls_captured. kinds.
Qed.

Lemma stage_failure_ends_the_loop_witness :
  main_loop Worlds.deaf None [Line "jarvis"; Line "jarvis"; CtrlC] (ready ∅)
  = (Raise (LibraryError "TranscriptionError"),
     snd (turn Worlds.deaf None (Line "jarvis") (ready ∅)))
  /\ fs (snd (turn Worlds.deaf None (Line "jarvis") (ready ∅))) !! Worlds.tmp0
     = None
  /\ calls is_input (snd (turn Worlds.deaf None (Line "jarvis") (ready ∅)))
     = calls is_input (listened (Line "jarvis") (ready ∅)).
Proof.
  apply (stage_failure_ends_the_loop Worlds.deaf None (Line "jarvis")
           [Line "jarvis"; CtrlC] (ready ∅) Worlds.tmp0);
    vm_compute; reflexivity.
Defined.

(** ** Transcript and inference *)

Lemma ask_gemini_trace w prompt st :
  trace (snd (ask_gemini w prompt st)) = trace st ++ [EvGenerate prompt].
Proof.
  unfold ask_gemini, call, history. unfold_monad. simpl.
  destruct (generate_content w (trace st) prompt) as [[text|e]|e]; reflexivity.
Qed.

Lemma calls_snoc p st st' e :
  trace st' = trace st ++ [e] ->
  calls p st' = calls p st ++ (if p e then [e] else []).
Proof.
  intros H. unfold calls. rewrite H, List.filter_app. simpl.
  destruct (p e); reflexivity.
Qed.

(** C3, as the specification states it, fails: transcription returns the
    empty text and the inference collaborator is called all the same, with
    the empty prompt. *)
Lemma empty_transcript_reaches_inference :
  fst (transcribe_whisper_local Worlds.silence Worlds.tmp0
         (captured Worlds.silence None (listened (Line "jarvis") (ready ∅))))
  = Ok ""
  /\ calls is_inference
       (snd (turn Worlds.silence None (Line "jarvis") (ready ∅)))
     = [EvGenerate ""].
Proof. vm_compute. split; reflexivity. Qed.

(** C3, amended.  In every turn in which transcription returns a text, the
    empty text included, the inference collaborator is called exactly once
    during the turn, with that text as its prompt. *)
Theorem transcript_always_reaches_inference
    (w : World) (device : option Z) (ev : console) (st : State)
    (path text : string) :
  fst (detect_wake_word ev st) = Ok true ->
  fst (record_audio w device 16000 1 10
         (snd (print "Wake word detected! " (listened ev st)))) = Ok path ->
  fst (transcribe_whisper_local w path (captured w device (listened ev st)))
  = Ok text ->
  calls is_inference (snd (turn w device ev st))
  = calls is_inference st ++ [EvGenerate text].
Proof.
  intros H0 H1 H2.
  rewrite (turn_woke _ _ _ _ _ H0 H1), try_finally_release. cbn [fst snd].
  rewrite calls_released by kinds. rewrite pipeline_run.
  pose proof (emits_calls is_transcription is_inference
                (transcribe_whisper_local w path)
                (captured w device (listened ev st))) as Ht.
  destruct (transcribe_whisper_local w path _) as [r2 st2].
  cbn [fst snd] in H2, Ht. subst r2.
  rewrite calls_captured, calls_listened in Ht by kinds.
  rewrite <- Ht by (kinds || apply emits_transcribe).
  pose proof (ask_gemini_trace w text
                (snd (print ("You said: " +:+ text) st2))) as Ha.
  apply (calls_snoc is_inference) in Ha. rewrite calls_print in Ha.
  destruct (ask_gemini w text _) as [[reply|e] st3]; cbn [fst snd] in Ha.
  - rewrite (emits_calls is_playback is_inference (speak w reply))
      by (kinds || apply emits_speak).
    rewrite calls_print. exact Ha.
  - exact Ha.
Qed.

Lemma transcript_always_reaches_inference_witness :
  calls is_inference
    (snd (turn Worlds.silence None (Line "jarvis") (ready ∅)))
  = calls is_inference (ready ∅) ++ [EvGenerate ""].
Proof.
  apply (transcript_always_reaches_inference Worlds.silence None
           (Line "jarvis") (ready ∅) Worlds.tmp0 "");
    vm_compute; reflexivity.
Defined.

(** ** Interrupt and wake word *)

(** C5. An interrupt at the wake prompt ends the loop with [SystemExit(0)],
    so the interpreter exits with code 0; reading the prompt is the only
    event added to the trace: no collaborator is called and the file
    system is untouched, whatever input would have followed. *)
Theorem interrupt_exits_with_code_zero
    (w : World) (device : option Z) (rest : list console) (st : State) :
  terminate (fst (main_loop w device (CtrlC :: rest) st)) = ExitCode 0
  /\ trace (snd (main_loop w device (CtrlC :: rest) st))
     = trace st ++ [EvInput wake_prompt]
  /\ calls is_collaborator (snd (main_loop w device (CtrlC :: rest) st))
     = calls is_collaborator st
  /\ fs (snd (main_loop w device (CtrlC :: rest) st)) = fs st.
Proof.
  repeat split.
  unfold calls. cbn [main_loop turn]. simpl.
  rewrite List.filter_app. simpl. apply app_nil_r.
Qed.

(** C10. The wake trigger fires exactly when the operator's line, stripped
    of surrounding white space and lowered, is ["jarvis"]; on any other line
    the turn returns at once, the loop waits for the next line, no
    collaborator has been called and the file system is unchanged. *)
Theorem wake_trigger
    (w : World) (device : option Z) (s : string) (rest : list console)
    (st : State) :
  (fst (detect_wake_word (Line s) st) = Ok true
   <-> PyStr.lower (PyStr.strip s) = "jarvis")
  /\ (fst (detect_wake_word (Line s) st) = Ok false
      <-> PyStr.lower (PyStr.strip s) <> "jarvis")
  /\ (PyStr.lower (PyStr.strip s) <> "jarvis" ->
      turn w device (Line s) st = (Ok tt, listened (Line s) st)
      /\ main_loop w device (Line s :: rest) st
         = main_loop w device rest (listened (Line s) st)
      /\ calls is_collaborator (listened (Line s) st)
         = calls is_collaborator st
      /\ fs (listened (Line s) st) = fs st).
Proof.
  assert (Hd : fst (detect_wake_word (Line s) st)
               = Ok (String.eqb (PyStr.lower (PyStr.strip s)) "jarvis"))
    by reflexivity.
  rewrite Hd.
  destruct (String.eqb_spec (PyStr.lower (PyStr.strip s)) "jarvis") as [E|E].
  - repeat split; intros; congruence.
  - split; [split; intros; congruence|].
    split; [split; intros; congruence|]. intros _.
    assert (Ht : turn w device (Line s) st = (Ok tt, listened (Line s) st)).
    { apply turn_asleep. rewrite Hd.
      destruct (String.eqb_spec (PyStr.lower (PyStr.strip s)) "jarvis");
        congruence. }
    split; [exact Ht|]. split.
    + rewrite main_loop_cons, Ht. reflexivity.
    + split; [apply calls_listened; kinds | reflexivity].
Qed.

Lemma wake_trigger_witness :
  turn Worlds.france None (Line "hello") (ready ∅)
  = (Ok tt, listened (Line "hello") (ready ∅))
  /\ main_loop Worlds.france None [Line "hello"; CtrlC] (ready ∅)
     = main_loop Worlds.france None [CtrlC] (listened (Line "hello") (ready ∅))
  /\ calls is_collaborator (listened (Line "hello") (ready ∅))
     = calls is_collaborator (ready ∅)
  /\ fs (listened (Line "hello") (ready ∅)) = fs (ready ∅).
Proof.
  apply (wake_trigger Worlds.france None "hello" [CtrlC] (ready ∅)).
  vm_compute. discriminate.
Defined.

(** ** Capture and artifact creation *)

(** C9, as the specification states it, fails: the temporary file cannot
    be created, and the capture call has already been made in that turn. *)
Lemma capture_before_failed_creation :
  fst (turn Worlds.disk_full None (Line "jarvis") (ready ∅))
  = Raise (LibraryError "ArtifactError")
  /\ trace (snd (turn Worlds.disk_full None (Line "jarvis") (ready ∅)))
     = [EvInput wake_prompt; EvRec 160000 16000 1 None; EvWait; EvTempFile].
Proof. vm_compute. split; reflexivity. Qed.

(** C9, amended.  In [record_audio] the capture call comes first: the
    artifact's backing file is created only after the capture call and the
    wait for it have returned.  A creation failure therefore follows the
    capture; it leaves [record_audio] as an exception, with the file system
    as it was. *)
Theorem capture_precedes_artifact_creation
    (w : World) (device : option Z) (R C D : Z) (st : State) :
  exists tail,
    trace (snd (record_audio w device R C D st))
    = trace st ++ EvRec (D * R) R C device :: tail
    /\ (tail = []
        \/ tail = [EvWait]
        \/ (tail = [EvWait; EvTempFile]
            /\ (exists e, fst (record_audio w device R C D st) = Raise e)
            /\ fs (snd (record_audio w device R C D st)) = fs st)
        \/ (exists path,
             tail = [EvWait; EvTempFile; EvWaveOpen path]
             /\ is_Some (fs (snd (record_audio w device R C D st)) !! path))).
Proof.
  unfold record_audio, sd_rec_call, write_file, call, history.
  unfold_monad. simpl.
  destruct (D * R <? 0); simpl; [exists []; auto|].
  destruct (sd_rec w (trace st) (D * R) R C device) as [signal|e]; simpl;
    [|exists []; auto].
  destruct (sd_wait w _) as [u|e]; simpl;
    [|exists [EvWait]; rewrite <- app_assoc; auto].
  destruct (NamedTemporaryFile w _) as [path|e]; simpl.
  - exists [EvWait; EvTempFile; EvWaveOpen path].
    assert (Hin : forall f rest,
               is_Some ((<[path := f]> rest : gmap string file) !! path)).
    { intros f rest. rewrite lookup_insert_eq. eauto. }
    repeat match goal with
           | |- context [match ?x with Ok _ => _ | Raise _ => _ end] =>
               destruct x; simpl
           | |- context [wave_flush w ?h ?p] =>
               destruct (wave_flush w h p) as [[? ?]|]; simpl
           end;
      rewrite <- !app_assoc; (split; [reflexivity|]); do 3 right;
      exists path; (split; [reflexivity | apply Hin]).
  - exists [EvWait; EvTempFile]. rewrite <- !app_assoc.
    split; [reflexivity|]. right. right. left. eauto.
Qed.

(** ** Start-up *)

(** C4, as the specification states it, fails: with no credential in the
    environment the module initialisation succeeds, the program reaches the
    loop, records and transcribes, and fails at the first inference call. *)
Lemma absent_credential_fails_late :
  environ Worlds.no_credential !! "GOOGLE_API_KEY" = None
  /\ fst (module_init Worlds.no_credential (boot ∅)) = Ok tt
  /\ fst (program Worlds.no_credential [Line "jarvis"] (boot ∅))
     = Raise (LibraryError "InferenceError")
  /\ calls is_collaborator
       (snd (program Worlds.no_credential [Line "jarvis"] (boot ∅)))
     = [EvRec 160000 16000 1 None; EvTranscribe Worlds.tmp0;
        EvGenerate "hello"].
Proof. vm_compute. repeat split. Qed.

(** The state after one more call, and after one more printed line. *)
Definition logged (e : event) (st : State) : State := snd (emit e st).
Definition printed (line : string) (st : State) : State :=
  snd (print line st).

Lemma call_run {A} e (oracle : list event -> result A) st :
  call e oracle st = (oracle (trace st), logged e st).
Proof. reflexivity. Qed.

Lemma print_run line st : print line st = (Ok tt, printed line st).
Proof. reflexivity. Qed.

Lemma trace_logged e st : trace (logged e st) = trace st ++ [e].
Proof. reflexivity. Qed.

Lemma trace_printed line st : trace (printed line st) = trace st.
Proof. reflexivity. Qed.

(** C4, amended.  When the credential variable is absent, the script makes
    no check of its own: [os.environ.get] yields [None], which is handed to
    [genai.configure].  The initialisation fails exactly when one of the
    three library calls made at start-up raises, and with that exception;
    when these calls, the argument parsing and the loading of the Whisper
    model all succeed, the program enters the wake loop, the inference
    library having been configured without a key. *)
Theorem absent_credential_is_passed_on
    (w : World) (st : State) (inputs : list console) :
  environ w !! "GOOGLE_API_KEY" = None ->
  fst (module_init w st)
  = match pyttsx3_init w with
    | Raise e => Raise e
    | Ok _ =>
        match genai_configure w None with
        | Raise e => Raise e
        | Ok _ => genai_GenerativeModel w "gemini-1.5-flash"
        end
    end
  /\ trace (snd (module_init w st))
     = trace st ++
       match pyttsx3_init w with
       | Raise _ => [EvTtsInit]
       | Ok _ =>
           match genai_configure w None with
           | Raise _ => [EvTtsInit; EvConfigure None]
           | Ok _ => [EvTtsInit; EvConfigure None;
                      EvGenerativeModel "gemini-1.5-flash"]
           end
       end
  /\ (forall device,
        pyttsx3_init w = Ok tt ->
        genai_configure w None = Ok tt ->
        genai_GenerativeModel w "gemini-1.5-flash" = Ok tt ->
        parse_args w = Ok device ->
        whisper_load_model w = Ok tt ->
        exists st',
          program w inputs st = main_loop w device inputs st'
          /\ trace st'
             = trace st ++ [EvTtsInit; EvConfigure None;
                            EvGenerativeModel "gemini-1.5-flash";
                            EvParseArgs; EvLoadWhisper]
          /\ fs st' = fs st
          /\ whisper_model st' = true).
Proof.
  intros Henv. split; [|split].
  - unfold module_init, call, history. rewrite Henv.
    unfold_monad. simpl.
    destruct (pyttsx3_init w) as [u|e]; simpl; [|reflexivity].
    destruct (genai_configure w None) as [u'|e]; simpl; [|reflexivity].
    destruct (genai_GenerativeModel w "gemini-1.5-flash") as [u''|e];
      reflexivity.
  - unfold module_init, call, history. rewrite Henv.
    unfold_monad. simpl.
    destruct (pyttsx3_init w) as [u|e]; simpl; [|reflexivity].
    destruct (genai_configure w None) as [u'|e]; simpl;
      rewrite <- ?app_assoc; [|reflexivity].
    destruct (genai_GenerativeModel w "gemini-1.5-flash") as [u''|e]; simpl;
      rewrite <- ?app_assoc; reflexivity.
  - intros device H1 H2 H3 H4 H5.
    unfold program, module_init, main, load_whisper_model. rewrite Henv.
    repeat (rewrite bind_run;
            rewrite ?call_run, ?print_run, ?H1, ?H2, ?H3, ?H4, ?H5;
            cbv beta iota).
    rewrite call_run. cbv beta iota. rewrite bind_run.
    eexists. split; [reflexivity|].
    cbn [set_whisper_model snd trace fs whisper_model].
    rewrite !trace_logged, !trace_printed, !trace_logged, <- !app_assoc.
    repeat split.
Qed.

Lemma absent_credential_is_passed_on_witness :
  fst (module_init Worlds.no_credential (boot ∅)) = Ok tt
  /\ trace (snd (module_init Worlds.no_credential (boot ∅)))
     = [EvTtsInit; EvConfigure None; EvGenerativeModel "gemini-1.5-flash"]
  /\ exists st',
       program Worlds.no_credential [Line "jarvis"] (boot ∅)
       = main_loop Worlds.no_credential None [Line "jarvis"] st'
       /\ trace st'
          = trace (boot ∅) ++ [EvTtsInit; EvConfigure None;
                               EvGenerativeModel "gemini-1.5-flash";
                               EvParseArgs; EvLoadWhisper]
       /\ fs st' = fs (boot ∅)
       /\ whisper_model st' = true.
Proof.
  destruct (absent_credential_is_passed_on Worlds.no_credential (boot ∅)
              [Line "jarvis"] eq_refl) as (Hout & Htrace & Hloop).
  split; [exact Hout|]. split; [exact Htrace|].
  apply (Hloop None); reflexivity.
Defined.

(** ** The recorded artifact *)

Section AudioFacts.

Import Audio.

Lemma wrap16_int16 x : int16 (wrap16 x).
Proof.
  unfold int16, wrap16.
  pose proof (Z.mod_pos_bound (x + 32768) 65536 eq_refl). lia.
Qed.

Lemma sample_roundtrip x :
  int16 x -> samples_of_bytes (sample_bytes x) = [x].
Proof.
  unfold int16, sample_bytes. intros Hx. simpl. f_equal.
  unfold sample_of_bytes, wrap16.
  change 255 with (Z.ones 8).
  rewrite !Z.land_ones, Z.shiftr_div_pow2 by lia.
  change (2 ^ 8) with 256.
  Z.div_mod_to_equations. lia.
Qed.

Lemma samples_of_bytes_cons x xs :
  samples_of_bytes (sample_bytes x ++ xs)
  = sample_of_bytes (Z.land x 255) (Z.land (Z.shiftr x 8) 255)
    :: samples_of_bytes xs.
Proof. reflexivity. Qed.

Lemma samples_roundtrip xs :
  Forall int16 xs -> samples_of_bytes (concat (map sample_bytes xs)) = xs.
Proof.
  induction 1 as [|x xs Hx _ IH]; [reflexivity|].
  cbn [map concat]. rewrite samples_of_bytes_cons, IH.
  f_equal. pose proof (sample_roundtrip x Hx) as Hr.
  simpl in Hr. congruence.
Qed.

Lemma tobytes_flat rec :
  tobytes rec = concat (map sample_bytes (concat rec)).
Proof.
  unfold tobytes. induction rec as [|f rec IH]; [reflexivity|].
  cbn [map concat]. rewrite IH, map_app, concat_app. reflexivity.
Qed.

Lemma length_sample_bytes xs :
  length (concat (map sample_bytes xs)) = (2 * length xs)%nat.
Proof. induction xs as [|x xs IH]; simpl; [reflexivity|]. rewrite IH. lia. Qed.

Lemma length_concat_uniform (n : nat) (rec : list (list Z)) :
  Forall (fun f => length f = n) rec ->
  length (concat rec) = (n * length rec)%nat.
Proof.
  induction 1 as [|f rec Hf _ IH]; simpl; [lia|].
  rewrite length_app, IH, Hf. lia.
Qed.

Lemma chunks_concat (n : nat) (rec : list (list Z)) :
  Forall (fun f => length f = n) rec ->
  chunks (length rec) n (concat rec) = rec.
Proof.
  induction 1 as [|f rec Hf _ IH]; [reflexivity|].
  cbn [length chunks concat].
  rewrite take_app_length' by (symmetry; exact Hf).
  rewrite drop_app_length' by (symmetry; exact Hf).
  rewrite IH. reflexivity.
Qed.

Lemma frames_roundtrip (n : nat) (rec : list (list Z)) :
  (0 < n)%nat ->
  Forall (fun f => length f = n /\ Forall int16 f) rec ->
  frames_of_bytes n (tobytes rec) = rec.
Proof.
  intros Hn Hrec.
  assert (Hlen : Forall (fun f => length f = n) rec)
    by (eapply Forall_impl; [exact Hrec|]; simpl; tauto).
  assert (Hall : Forall int16 (concat rec)).
  { clear Hlen. induction Hrec as [|f rec [_ Hf] _ IH]; simpl;
      [constructor | apply Forall_app; split; assumption]. }
  unfold frames_of_bytes. rewrite tobytes_flat, samples_roundtrip by exact Hall.
  rewrite (length_concat_uniform n) by exact Hlen.
  rewrite Nat.mul_comm, Nat.div_mul by lia.
  apply chunks_concat, Hlen.
Qed.

Lemma mk_recording_length frames channels signal :
  length (mk_recording frames channels signal) = frames.
Proof. unfold mk_recording. rewrite length_map, length_seq. reflexivity. Qed.

Lemma mk_recording_frames frames channels signal :
  Forall (fun f => length f = channels /\ Forall int16 f)
         (mk_recording frames channels signal).
Proof.
  unfold mk_recording. apply Forall_forall. intros f Hf.
  apply list_elem_of_In, in_map_iff in Hf as (i & <- & _).
  split; [rewrite length_map, length_seq; reflexivity|].
  apply Forall_forall. intros x Hx.
  apply list_elem_of_In, in_map_iff in Hx as (c & <- & _).
  apply wrap16_int16.
Qed.

Lemma length_tobytes (n : nat) (rec : list (list Z)) :
  Forall (fun f => length f = n) rec ->
  length (tobytes rec) = (2 * (n * length rec))%nat.
Proof.
  intros H. rewrite tobytes_flat, length_sample_bytes.
  rewrite (length_concat_uniform n) by exact H. reflexivity.
Qed.

End AudioFacts.

(** What [record_audio] returns and leaves on disk when every step
    succeeds. *)
Lemma record_audio_ok w device R C D st path :
  fst (record_audio w device R C D st) = Ok path ->
  exists signal,
    0 <= D * R /\ 1 <= C /\ 0 < R
    /\ fs (snd (record_audio w device R C D st)) !! path
       = Some (WavFile
           {| Audio.nchannels := C; Audio.sampwidth := 2;
              Audio.framerate := R;
              Audio.nframeswritten :=
                0 + Z.of_nat
                      (length
                         (Audio.tobytes
                            (Audio.mk_recording (Z.to_nat (D * R))
                               (Z.to_nat C) signal)))
                    / (2 * C);
              Audio.data :=
                [] ++ Audio.tobytes
                        (Audio.mk_recording (Z.to_nat (D * R)) (Z.to_nat C)
                           signal) |}).
Proof.
  unfold record_audio, sd_rec_call, write_file, call, history.
  unfold_monad. cbn [fst snd trace fs].
  destruct (D * R <? 0) eqn:Hframes; cbn [fst snd]; [discriminate|].
  destruct (sd_rec w (trace st) (D * R) R C device) as [signal|e];
    cbn [fst snd trace fs]; [|discriminate].
  destruct (sd_wait w _) as [u|e]; cbn [fst snd trace fs]; [|discriminate].
  destruct (NamedTemporaryFile w _) as [path'|e]; cbn [fst snd trace fs];
    [|discriminate].
  destruct (wave_open_file w _ path') as [u'|e]; cbn [fst snd trace fs];
    [|discriminate].
  unfold Audio.setnchannels, Audio.setsampwidth, Audio.setframerate,
    Audio.writeframes, Audio.wave_open.
  destruct (C <? 1) eqn:HC; cbn [fst snd]; [discriminate|].
  cbn [Audio.nchannels Audio.sampwidth Audio.framerate Audio.nframeswritten
       Audio.data].
  change ((2 <? 1) || (4 <? 2)) with false. cbv iota.
  destruct (R <=? 0) eqn:HR; cbn [fst snd]; [discriminate|].
  cbn [Audio.nchannels Audio.sampwidth Audio.framerate Audio.nframeswritten
       Audio.data].
  destruct (C =? 0) eqn:HC0; [lia|].
  change (2 =? 0) with false. cbv iota.
  destruct (R =? 0) eqn:HR0; [lia|].
  cbn [fst snd trace fs Audio.nchannels Audio.sampwidth Audio.framerate
       Audio.nframeswritten Audio.data].
  destruct (wave_flush w _ path') as [[e leftover]|];
    cbn [fst snd trace fs]; [discriminate|].
  intros [= <-]. exists signal.
  repeat split; try lia. apply lookup_insert_eq.
Qed.

(** C6. Whenever [record_audio] returns a path, the file at that path is a
    WAV container whose header records the given channel count, a sample
    width of two bytes and the given sample rate, and which holds exactly
    [D * R] frames of [C] samples, each a 16-bit signed integer stored in
    two bytes.  The frame count depends on the duration and the rate only:
    nothing in the recorded signal shortens it. *)
Theorem recording_has_fixed_length
    (w : World) (device : option Z) (R C D : Z) (st : State) (path : string) :
  fst (record_audio w device R C D st) = Ok path ->
  exists (wf : Audio.Wave_write) (recording : list (list Z)),
    fs (snd (record_audio w device R C D st)) !! path = Some (WavFile wf)
    /\ Audio.nchannels wf = C
    /\ Audio.sampwidth wf = 2
    /\ Audio.framerate wf = R
    /\ Audio.nframeswritten wf = D * R
    /\ Z.of_nat (length recording) = D * R
    /\ Forall (fun frame => Z.of_nat (length frame) = C
                            /\ Forall Audio.int16 frame) recording
    /\ Audio.data wf = Audio.tobytes recording
    /\ Z.of_nat (length (Audio.data wf)) = 2 * C * (D * R)
    /\ Audio.frames_of_bytes (Z.to_nat C) (Audio.data wf) = recording.
Proof.
  intros Hok.
  destruct (record_audio_ok w device R C D st path Hok)
    as (signal & HDR & HC & HR & Hfile).
  set (recording :=
         Audio.mk_recording (Z.to_nat (D * R)) (Z.to_nat C) signal) in *.
  pose proof (mk_recording_frames (Z.to_nat (D * R)) (Z.to_nat C) signal)
    as Hframes. fold recording in Hframes.
  pose proof (mk_recording_length (Z.to_nat (D * R)) (Z.to_nat C) signal)
    as Hlen. fold recording in Hlen.
  assert (Hwidth : Forall (fun f => length f = Z.to_nat C) recording)
    by (eapply Forall_impl; [exact Hframes|]; simpl; tauto).
  pose proof (length_tobytes _ _ Hwidth) as Hbytes. rewrite Hlen in Hbytes.
  assert (Hsize : Z.of_nat (length (Audio.tobytes recording))
                  = 2 * C * (D * R)) by (rewrite Hbytes; lia).
  eexists _, recording. split; [exact Hfile|].
  cbn [Audio.nchannels Audio.sampwidth Audio.framerate Audio.nframeswritten
       Audio.data app].
  repeat split.
  - rewrite Hsize. rewrite Z.add_0_l.
    replace (2 * C * (D * R)) with (D * R * (2 * C)) by lia.
    apply Z.div_mul. lia.
  - rewrite Hlen. lia.
  - eapply Forall_impl; [exact Hframes|]. simpl. intros f [Hf Hi].
    split; [rewrite Hf; lia | exact Hi].
  - exact Hsize.
  - apply frames_roundtrip; [lia | exact Hframes].
Qed.

Lemma recording_has_fixed_length_witness :
  exists (wf : Audio.Wave_write) (recording : list (list Z)),
    fs (snd (record_audio Worlds.ramp (Some 1) 4 2 1 (ready ∅))) !! Worlds.tmp0
    = Some (WavFile wf)
    /\ Audio.nchannels wf = 2
    /\ Audio.sampwidth wf = 2
    /\ Audio.framerate wf = 4
    /\ Audio.nframeswritten wf = 1 * 4
    /\ Z.of_nat (length recording) = 1 * 4
    /\ Forall (fun frame => Z.of_nat (length frame) = 2
                            /\ Forall Audio.int16 frame) recording
    /\ Audio.data wf = Audio.tobytes recording
    /\ Z.of_nat (length (Audio.data wf)) = 2 * 2 * (1 * 4)
    /\ Audio.frames_of_bytes (Z.to_nat 2) (Audio.data wf) = recording.
Proof.
  apply (recording_has_fixed_length Worlds.ramp (Some 1) 4 2 1 (ready ∅)
           Worlds.tmp0).
  vm_compute. reflexivity.
Defined.

(** The same capture, evaluated: four frames of two channels; the samples
    20000, 40000 and 60000 of the device wrap to int16. *)
Example ramp_recording :
  fs (snd (record_audio Worlds.ramp (Some 1) 4 2 1 (ready ∅))) !! Worlds.tmp0
  = Some (WavFile
      {| Audio.nchannels := 2; Audio.sampwidth := 2; Audio.framerate := 4;
         Audio.nframeswritten := 4;
         Audio.data := [0; 0; 255; 255; 32; 78; 31; 78;
                        64; 156; 63; 156; 96; 234; 95; 234] |})
  /\ Audio.frames_of_bytes 2
       [0; 0; 255; 255; 32; 78; 31; 78; 64; 156; 63; 156; 96; 234; 95; 234]
     = [[0; -1]; [20000; 19999]; [-25536; -25537]; [-5536; -5537]].
Proof. vm_compute. split; reflexivity. Qed.

(** The scenario of the specification, evaluated: wake, capture of ten
    seconds at 16 kHz mono, transcription, inference, playback of the
    reply, deletion of the artifact, back to waiting, then an interrupt. *)
Example scenario_france :
  fst (program Worlds.france [Line "Jarvis"; CtrlC] (boot ∅))
  = Raise (SystemExit 0)
  /\ trace (snd (program Worlds.france [Line "Jarvis"; CtrlC] (boot ∅)))
     = [EvTtsInit; EvConfigure (Some "secret");
        EvGenerativeModel "gemini-1.5-flash"; EvParseArgs; EvLoadWhisper;
        EvInput wake_prompt; EvRec 160000 16000 1 None; EvWait; EvTempFile;
        EvWaveOpen Worlds.tmp0; EvTranscribe Worlds.tmp0;
        EvGenerate "what is the capital of france"; EvSay "Paris.";
        EvRunAndWait; EvRemove Worlds.tmp0; EvInput wake_prompt]
  /\ fs (snd (program Worlds.france [Line "Jarvis"; CtrlC] (boot ∅)))
     !! Worlds.tmp0 = None.
Proof. vm_compute. repeat split. Qed.

(** ** Which lines wake the assistant *)

Section WakeLines.

Import PyStr.

Lemma isspace_lower_char c : isspace (lower_char c) = isspace c.
Proof. destruct c as [[] [] [] [] [] [] [] []]; reflexivity. Qed.

Lemma append_nil x : "" +:+ x = x.
Proof. reflexivity. Qed.

Lemma append_cons c l x : String c l +:+ x = String c (l +:+ x).
Proof. reflexivity. Qed.

Lemma lstrip_split s :
  exists l, s = l +:+ lstrip s /\ all_space l = true.
Proof.
  induction s as [|c s (l & Hs & Hl)]; [exists ""; split; reflexivity|].
  simpl. destruct (isspace c) eqn:Hc.
  - exists (String c l). rewrite append_cons, <- Hs. simpl.
    rewrite Hc, Hl. split; reflexivity.
  - exists "". split; reflexivity.
Qed.

Lemma rstrip_split s :
  exists r, s = rstrip s +:+ r /\ all_space r = true.
Proof.
  induction s as [|c s (r & Hs & Hr)]; [exists ""; split; reflexivity|].
  simpl. destruct (rstrip s) as [|c' t] eqn:Ht.
  - rewrite append_nil in Hs. subst s. destruct (isspace c) eqn:Hc.
    + exists (String c r). rewrite append_nil. simpl. rewrite Hc, Hr.
      split; reflexivity.
    + exists r. split; [reflexivity | exact Hr].
  - exists r. rewrite append_cons, <- Hs. split; [reflexivity | exact Hr].
Qed.

Lemma lstrip_app_space l x : all_space l = true -> lstrip (l +:+ x) = lstrip x.
Proof.
  induction l as [|c l IH]; [reflexivity|]. rewrite append_cons. simpl.
  intros [Hc Hl]%andb_prop. rewrite Hc. apply IH, Hl.
Qed.

Lemma rstrip_all_space r : all_space r = true -> rstrip r = "".
Proof.
  induction r as [|c r IH]; [reflexivity|]. simpl.
  intros [Hc Hr]%andb_prop. rewrite (IH Hr), Hc. reflexivity.
Qed.

Lemma rstrip_app_space x r : all_space r = true -> rstrip (x +:+ r) = rstrip x.
Proof.
  intros Hr. induction x as [|c x IH].
  - rewrite append_nil. apply rstrip_all_space, Hr.
  - rewrite append_cons. simpl. rewrite IH. reflexivity.
Qed.

(** A word that lowers to ["jarvis"] has no white space at either end, so
    stripping leaves it as it is. *)
Lemma strip_wake_word word : lower word = "jarvis" -> strip word = word.
Proof.
  intros H.
  destruct word as [|c1 [|c2 [|c3 [|c4 [|c5 [|c6 [|c7 word]]]]]]];
    try discriminate H.
  simpl in H. injection H as H1 H2 H3 H4 H5 H6.
  assert (S1 : isspace c1 = false)
    by (rewrite <- isspace_lower_char, H1; reflexivity).
  assert (S6 : isspace c6 = false)
    by (rewrite <- isspace_lower_char, H6; reflexivity).
  unfold strip. simpl. rewrite S1. simpl. rewrite S6. reflexivity.
Qed.

(** The lines that fire the trigger: white space, a spelling of "jarvis" in
    any mix of cases, white space. *)
Lemma wake_lines s :
  lower (strip s) = "jarvis" <->
  exists l word r,
    s = l +:+ word +:+ r /\ all_space l = true /\ all_space r = true
    /\ lower word = "jarvis".
Proof.
  split.
  - intros H. destruct (lstrip_split s) as (l & Hs & Hl).
    destruct (rstrip_split (lstrip s)) as (r & Hs' & Hr).
    exists l, (strip s), r. unfold strip. rewrite <- Hs', <- Hs. auto.
  - intros (l & word & r & -> & Hl & Hr & Hw).
    unfold strip. rewrite (lstrip_app_space _ _ Hl).
    pose proof (strip_wake_word word Hw) as Hstrip. unfold strip in Hstrip.
    assert (Hls : lstrip (word +:+ r) = word +:+ r).
    { destruct word as [|c word]; [discriminate Hw|].
      rewrite append_cons. simpl in *. injection Hw as H1 _.
      assert (S1 : isspace c = false)
        by (rewrite <- isspace_lower_char, H1; reflexivity).
      rewrite S1. reflexivity. }
    assert (Hlw : lstrip word = word).
    { destruct word as [|c word]; [discriminate Hw|].
      simpl in *. injection Hw as H1 _.
      assert (S1 : isspace c = false)
        by (rewrite <- isspace_lower_char, H1; reflexivity).
      rewrite S1. reflexivity. }
    rewrite Hls, (rstrip_app_space _ _ Hr). rewrite Hlw in Hstrip.
    rewrite Hstrip. exact Hw.
Qed.

Example wake_line_mixed_case :
  lower (strip (String (ascii_of_N 9) "  JaRvIs  ")) = "jarvis".
Proof. reflexivity. Qed.

Example wake_line_inner_space : lower (strip "jar vis") <> "jarvis".
Proof. discriminate. Qed.

End WakeLines.

(** * Further properties of the script *)

(** ** The loop as a whole *)

Definition is_turn_event (e : event) : bool :=
  is_input e || is_recording e || is_collaborator e || is_removal e.

Lemma emits_pipeline w path : emits is_collaborator (pipeline w path).
Proof.
  unfold pipeline.
  apply emits_bind;
    [apply (emits_weaken is_transcription); [kinds | apply emits_transcribe]|].
  intros text. apply emits_bind; [apply emits_print|]. intros _.
  apply emits_bind;
    [apply (emits_weaken is_inference); [kinds | apply emits_ask_gemini]|].
  intros reply. apply emits_bind; [apply emits_print|]. intros _.
  apply (emits_weaken is_playback); [kinds | apply emits_speak].
Qed.

Lemma emits_turn w device ev : emits is_turn_event (turn w device ev).
Proof.
  unfold turn.
  apply emits_bind;
    [apply (emits_weaken is_input); [kinds | apply emits_detect_wake_word]|].
  intros [|]; [|apply emits_ret].
  apply emits_bind; [apply emits_print|]. intros _.
  apply emits_bind;
    [apply (emits_weaken is_recording); [kinds | apply emits_record_audio]|].
  intros path. apply emits_try_finally.
  - apply (emits_weaken is_collaborator); [kinds | apply emits_pipeline].
  - apply (emits_weaken is_removal); [kinds | apply emits_release].
Qed.

Lemma emits_main_loop w device inputs :
  emits is_turn_event (main_loop w device inputs).
Proof.
  induction inputs as [|ev rest IH]; simpl.
  - apply emits_turn.
  - apply emits_bind; [apply emits_turn | intros _; exact IH].
Qed.

Lemma turn_eof w device st :
  turn w device Eof st = (Raise EOFError, listened Eof st).
Proof. reflexivity. Qed.

(** X1. [while True] has no normal exit: whatever the operator types and
    whatever the collaborators do, the loop ends by an exception. *)
Theorem main_loop_never_returns
    (w : World) (device : option Z) (inputs : list console) (st : State) :
  exists e, fst (main_loop w device inputs st) = Raise e.
Proof.
  revert st. induction inputs as [|ev rest IH]; intros st.
  - exists EOFError. reflexivity.
  - rewrite main_loop_cons.
    destruct (turn w device ev st) as [[u|e] st']; [apply IH | eauto].
Qed.

(** The state after a run of lines that do not wake the assistant. *)
Definition idled (lines : list string) (st : State) : State :=
  fold_left (fun s line => listened (Line line) s) lines st.

Definition asleep (line : string) : Prop :=
  PyStr.lower (PyStr.strip line) <> "jarvis".

Lemma detect_asleep line st :
  asleep line -> fst (detect_wake_word (Line line) st) = Ok false.
Proof.
  intros H. change (fst (detect_wake_word (Line line) st))
    with (@Ok bool (String.eqb (PyStr.lower (PyStr.strip line)) "jarvis")).
  destruct (String.eqb_spec (PyStr.lower (PyStr.strip line)) "jarvis");
    [contradiction | reflexivity].
Qed.

Lemma main_loop_idle w device lines rest st :
  Forall asleep lines ->
  main_loop w device (map Line lines ++ rest) st
  = main_loop w device rest (idled lines st).
Proof.
  intros H. revert st. induction H as [|line lines Hl _ IH]; intros st.
  - reflexivity.
  - cbn [map app]. rewrite main_loop_cons.
    rewrite (turn_asleep w device (Line line) st (detect_asleep line st Hl)).
    apply IH.
Qed.

Lemma idled_untouched lines st :
  fs (idled lines st) = fs st
  /\ whisper_model (idled lines st) = whisper_model st
  /\ trace (idled lines st)
     = trace st ++ replicate (length lines) (EvInput wake_prompt).
Proof.
  revert st. induction lines as [|line lines IH]; intros st.
  - simpl. rewrite app_nil_r. auto.
  - cbn [idled fold_left length replicate].
    destruct (IH (listened (Line line) st)) as (Hfs & Hm & Ht).
    unfold idled in *. rewrite Hfs, Hm, Ht. simpl.
    rewrite <- app_assoc. auto.
Qed.

Lemma calls_idled lines st :
  calls is_collaborator (idled lines st) = calls is_collaborator st.
Proof.
  destruct (idled_untouched lines st) as (_ & _ & Ht).
  unfold calls. rewrite Ht, List.filter_app.
  replace (List.filter is_collaborator
             (replicate (length lines) (EvInput wake_prompt)))
    with (@nil event); [apply app_nil_r|].
  clear Ht. induction (length lines) as [|n IH]; [reflexivity | exact IH].
Qed.

(** X2. Lines that are not the wake word are skipped, however many there
    are: the loop goes on with the rest of the input, having called no
    collaborator and touched no file; each line cost one prompt. *)
Theorem idle_lines_are_skipped
    (w : World) (device : option Z) (lines : list string)
    (rest : list console) (st : State) :
  Forall asleep lines ->
  main_loop w device (map Line lines ++ rest) st
  = main_loop w device rest (idled lines st)
  /\ calls is_collaborator (idled lines st) = calls is_collaborator st
  /\ fs (idled lines st) = fs st
  /\ trace (idled lines st)
     = trace st ++ replicate (length lines) (EvInput wake_prompt).
Proof.
  intros H. split; [apply main_loop_idle, H|].
  split; [apply calls_idled|]. split; apply idled_untouched.
Qed.

Lemma idle_lines_are_skipped_witness :
  main_loop Worlds.france None (map Line ["hello"; "jar vis"; ""] ++ [CtrlC])
            (ready ∅)
  = main_loop Worlds.france None [CtrlC]
              (idled ["hello"; "jar vis"; ""] (ready ∅))
  /\ calls is_collaborator (idled ["hello"; "jar vis"; ""] (ready ∅))
     = calls is_collaborator (ready ∅)
  /\ fs (idled ["hello"; "jar vis"; ""] (ready ∅)) = fs (ready ∅)
  /\ trace (idled ["hello"; "jar vis"; ""] (ready ∅))
     = trace (ready ∅) ++ replicate (length ["hello"; "jar vis"; ""])
                            (EvInput wake_prompt).
Proof.
  apply (idle_lines_are_skipped Worlds.france None ["hello"; "jar vis"; ""]
           [CtrlC] (ready ∅)).
  repeat constructor; vm_compute; discriminate.
Defined.

(** X3. When the console is exhausted (or closed) at the wake prompt,
    [input()] raises [EOFError], which the handler for [KeyboardInterrupt]
    does not catch: after any number of idle lines the loop ends with an
    uncaught [EOFError], a traceback and not exit code 0, and no
    collaborator has been called. *)
Theorem end_of_input_is_a_traceback
    (w : World) (device : option Z) (lines : list string) (st : State) :
  Forall asleep lines ->
  fst (main_loop w device (map Line lines) st) = Raise EOFError
  /\ terminate (fst (main_loop w device (map Line lines) st))
     = Traceback EOFError
  /\ calls is_collaborator (snd (main_loop w device (map Line lines) st))
     = calls is_collaborator st
  /\ fs (snd (main_loop w device (map Line lines) st)) = fs st.
Proof.
  intros H. pose proof (main_loop_idle w device lines [] st H) as Hrun.
  rewrite app_nil_r in Hrun. rewrite Hrun. cbn [main_loop].
  rewrite turn_eof. cbn [fst snd terminate].
  split; [reflexivity|]. split; [reflexivity|]. split.
  - unfold listened.
    rewrite (emits_calls is_input is_collaborator (detect_wake_word Eof))
      by (kinds || apply emits_detect_wake_word).
    apply calls_idled.
  - transitivity (fs (idled lines st)); [reflexivity|].
    apply idled_untouched.
Qed.

Lemma end_of_input_is_a_traceback_witness :
  fst (main_loop Worlds.france None (map Line ["hello"]) (ready ∅))
  = Raise EOFError
  /\ terminate (fst (main_loop Worlds.france None (map Line ["hello"])
                       (ready ∅)))
     = Traceback EOFError
  /\ calls is_collaborator
       (snd (main_loop Worlds.france None (map Line ["hello"]) (ready ∅)))
     = calls is_collaborator (ready ∅)
  /\ fs (snd (main_loop Worlds.france None (map Line ["hello"]) (ready ∅)))
     = fs (ready ∅).
Proof.
  apply (end_of_input_is_a_traceback Worlds.france None ["hello"] (ready ∅)).
  repeat constructor; vm_compute; discriminate.
Defined.

(** ** Spellings of the wake word *)

Section WakeSpellings.

Import PyStr.

(** [c] is the letter [lo] or its capital [up]. *)
Definition either_case (lo up c : ascii) : Prop := c = lo \/ c = up.

Ltac by_code_point c :=
  destruct c as [[] [] [] [] [] [] [] []];
  (split; intros H;
   [ vm_compute in H;
     first [discriminate H | left; reflexivity | right; reflexivity]
   | destruct H as [H|H]; first [discriminate H | reflexivity] ]).

Lemma lower_char_j c : lower_char c = "j"%char <-> either_case "j" "J" c.
Proof. unfold either_case. by_code_point c. Qed.

Lemma lower_char_a c : lower_char c = "a"%char <-> either_case "a" "A" c.
Proof. unfold either_case. by_code_point c. Qed.

Lemma lower_char_r c : lower_char c = "r"%char <-> either_case "r" "R" c.
Proof. unfold either_case. by_code_point c. Qed.

Lemma lower_char_v c : lower_char c = "v"%char <-> either_case "v" "V" c.
Proof. unfold either_case. by_code_point c. Qed.

Lemma lower_char_i c : lower_char c = "i"%char <-> either_case "i" "I" c.
Proof. unfold either_case. by_code_point c. Qed.

Lemma lower_char_s c : lower_char c = "s"%char <-> either_case "s" "S" c.
Proof. unfold either_case. by_code_point c. Qed.

Lemma lower_jarvis word :
  lower word = "jarvis" <->
  exists c1 c2 c3 c4 c5 c6,
    word = String c1 (String c2 (String c3 (String c4 (String c5
             (String c6 EmptyString)))))
    /\ either_case "j" "J" c1 /\ either_case "a" "A" c2
    /\ either_case "r" "R" c3 /\ either_case "v" "V" c4
    /\ either_case "i" "I" c5 /\ either_case "s" "S" c6.
Proof.
  split.
  - intros H.
    destruct word as [|c1 [|c2 [|c3 [|c4 [|c5 [|c6 [|c7 word]]]]]]];
      try discriminate H.
    simpl in H. injection H as H1 H2 H3 H4 H5 H6.
    exists c1, c2, c3, c4, c5, c6. split; [reflexivity|].
    rewrite <- lower_char_j, <- lower_char_a, <- lower_char_r,
      <- lower_char_v, <- lower_char_i, <- lower_char_s. auto 7.
  - intros (c1 & c2 & c3 & c4 & c5 & c6 & -> & H1 & H2 & H3 & H4 & H5 & H6).
    apply lower_char_j in H1. apply lower_char_a in H2.
    apply lower_char_r in H3. apply lower_char_v in H4.
    apply lower_char_i in H5. apply lower_char_s in H6.
    simpl. congruence.
Qed.

(** X4. The wake trigger fires exactly on the lines made of white space,
    the six letters j-a-r-v-i-s, each in either case, and white space:
    nothing else in the modelled character range lowers to the wake word,
    and white space inside the word is not ignored. *)
Theorem wake_line_shape (s : string) (st : State) :
  fst (detect_wake_word (Line s) st) = Ok true <->
  exists l r c1 c2 c3 c4 c5 c6,
    s = l +:+ String c1 (String c2 (String c3 (String c4 (String c5
              (String c6 EmptyString))))) +:+ r
    /\ all_space l = true /\ all_space r = true
    /\ either_case "j" "J" c1 /\ either_case "a" "A" c2
    /\ either_case "r" "R" c3 /\ either_case "v" "V" c4
    /\ either_case "i" "I" c5 /\ either_case "s" "S" c6.
Proof.
  change (fst (detect_wake_word (Line s) st))
    with (@Ok bool (String.eqb (lower (strip s)) "jarvis")).
  assert (Hfire : @Ok bool (String.eqb (lower (strip s)) "jarvis") = Ok true
                  <-> lower (strip s) = "jarvis").
  { destruct (String.eqb_spec (lower (strip s)) "jarvis");
      split; intros; congruence. }
  rewrite Hfire, wake_lines. split.
  - intros (l & word & r & -> & Hl & Hr & Hw).
    apply lower_jarvis in Hw
      as (c1 & c2 & c3 & c4 & c5 & c6 & -> & Hc).
    exists l, r, c1, c2, c3, c4, c5, c6. auto.
  - intros (l & r & c1 & c2 & c3 & c4 & c5 & c6 & -> & Hl & Hr & Hc).
    eexists l, _, r. split; [reflexivity|]. split; [exact Hl|].
    split; [exact Hr|]. apply lower_jarvis. eauto 10.
Qed.

End WakeSpellings.

(** ** The reply *)

Section Stripping.

Import PyStr.

(** The string does not begin with white space. *)
Definition head_kept (s : string) : Prop :=
  match s with
  | EmptyString => True
  | String c _ => isspace c = false
  end.

Lemma lstrip_head s : head_kept (lstrip s).
Proof.
  induction s as [|c s IH]; simpl; [exact I|].
  destruct (isspace c) eqn:Hc; [exact IH | exact Hc].
Qed.

Lemma lstrip_kept s : head_kept s -> lstrip s = s.
Proof. destruct s as [|c s]; simpl; [reflexivity|]. intros ->. reflexivity. Qed.

Lemma rstrip_head s : head_kept s -> head_kept (rstrip s).
Proof.
  destruct s as [|c s]; simpl; [exact id|]. intros Hc.
  destruct (rstrip s); [rewrite Hc|]; exact Hc.
Qed.

Lemma rstrip_idem s : rstrip (rstrip s) = rstrip s.
Proof.
  induction s as [|c s IH]; [reflexivity|]. simpl.
  destruct (rstrip s) as [|d t] eqn:Hr.
  - destruct (isspace c) eqn:Hc; simpl; [reflexivity|].
    rewrite Hc. reflexivity.
  - change (rstrip (String c (String d t)))
      with (match rstrip (String d t) with
            | EmptyString =>
                if isspace c then EmptyString else String c EmptyString
            | r => String c r
            end).
    rewrite IH. reflexivity.
Qed.

Lemma strip_kept s :
  lstrip (strip s) = strip s /\ rstrip (strip s) = strip s.
Proof.
  unfold strip. split; [|apply rstrip_idem].
  apply lstrip_kept, rstrip_head, lstrip_head.
Qed.

Lemma strip_idem s : strip (strip s) = strip s.
Proof.
  destruct (strip_kept s) as [Hl Hr]. unfold strip at 1.
  rewrite Hl. exact Hr.
Qed.

End Stripping.

(** X5. Whenever [ask_gemini] returns, what it returns is the text of the
    backend's response with the surrounding white space removed: the reply
    neither begins nor ends with white space, and stripping it again
    changes nothing. *)
Theorem reply_is_stripped
    (w : World) (prompt reply : string) (st : State) :
  fst (ask_gemini w prompt st) = Ok reply ->
  (exists text, generate_content w (trace st) prompt = Ok (Ok text)
                /\ reply = PyStr.strip text)
  /\ PyStr.lstrip reply = reply
  /\ PyStr.rstrip reply = reply
  /\ PyStr.strip reply = reply.
Proof.
  unfold ask_gemini, call, history. unfold_monad. simpl.
  destruct (generate_content w (trace st) prompt) as [[text|e]|e]; simpl;
    try discriminate.
  intros [= <-]. split; [eauto|].
  split; [apply strip_kept|]. split; [apply strip_kept | apply strip_idem].
Qed.

(** A backend whose answers come wrapped in blanks and a line break. *)
Definition padded : World :=
  Worlds.make Worlds.with_key (fun _ => Ok tt) (Ok Worlds.tmp0) (Ok "hello")
    (fun _ => Ok (Ok ("  Paris. " +:+ nl))) (Ok tt).

Lemma reply_is_stripped_witness :
  (exists text, generate_content padded (trace (ready ∅)) "hello"
                = Ok (Ok text)
                /\ "Paris." = PyStr.strip text)
  /\ PyStr.lstrip "Paris." = "Paris."
  /\ PyStr.rstrip "Paris." = "Paris."
  /\ PyStr.strip "Paris." = "Paris.".
Proof.
  apply (reply_is_stripped padded "hello" "Paris." (ready ∅)).
  vm_compute. reflexivity.
Defined.

(** ** The stages of a turn *)

(** The [try] body, read off the answers of the collaborators: which calls
    it makes, in which order, and how it ends.  The histories are those at
    which each collaborator is asked. *)
Lemma pipeline_exact w path st :
  whisper_model st = true ->
  trace (snd (pipeline w path st))
  = trace st ++
    match whisper_transcribe w (trace st) path (fs st !! path) with
    | Raise _ => [EvTranscribe path]
    | Ok text =>
        EvTranscribe path :: EvGenerate text ::
        match generate_content w (trace st ++ [EvTranscribe path]) text with
        | Ok (Ok answer) =>
            EvSay (PyStr.strip answer) ::
            match tts_say w (trace st ++ [EvTranscribe path; EvGenerate text])
                    (PyStr.strip answer) with
            | Ok _ => [EvRunAndWait]
            | Raise _ => []
            end
        | _ => []
        end
    end
  /\ fst (pipeline w path st)
     = match whisper_transcribe w (trace st) path (fs st !! path) with
       | Raise e => Raise e
       | Ok text =>
           match generate_content w (trace st ++ [EvTranscribe path]) text with
           | Raise e | Ok (Raise e) => Raise e
           | Ok (Ok answer) =>
               match tts_say w
                       (trace st ++ [EvTranscribe path; EvGenerate text])
                       (PyStr.strip answer) with
               | Raise e => Raise e
               | Ok _ =>
                   tts_runAndWait w
                     (trace st ++ [EvTranscribe path; EvGenerate text;
                                   EvSay (PyStr.strip answer)])
               end
           end
       end.
Proof.
  intros Hm.
  unfold pipeline, transcribe_whisper_local, ask_gemini, speak, read_file,
    call, history.
  unfold_monad. simpl. rewrite Hm. simpl.
  destruct (whisper_transcribe w (trace st) path (fs st !! path))
    as [text|e]; simpl; [|split; reflexivity].
  destruct (generate_content w (trace st ++ [EvTranscribe path]) text)
    as [[answer|e]|e]; simpl; rewrite <- ?app_assoc; simpl;
    [|split; reflexivity..].
  destruct (tts_say w (trace st ++ [EvTranscribe path; EvGenerate text])
              (PyStr.strip answer)) as [u|e]; simpl;
    rewrite <- ?app_assoc; simpl; split; reflexivity.
Qed.

Lemma fs_pipeline w path st : fs (snd (pipeline w path st)) = fs st.
Proof.
  unfold pipeline, transcribe_whisper_local, ask_gemini, speak, read_file,
    call, history.
  unfold_monad. simpl.
  destruct (whisper_model st); simpl; [|reflexivity].
  destruct (whisper_transcribe w (trace st) path (fs st !! path))
    as [text|e]; simpl; [|reflexivity].
  destruct (generate_content w _ text) as [[answer|e]|e]; simpl;
    [|reflexivity..].
  destruct (tts_say w _ (PyStr.strip answer)) as [u|e]; reflexivity.
Qed.

Lemma model_listened ev st : whisper_model (listened ev st) = whisper_model st.
Proof.
  unfold listened, detect_wake_word, input. unfold_monad.
  destruct ev; reflexivity.
Qed.

Lemma model_record_audio w device R C D st :
  whisper_model (snd (record_audio w device R C D st)) = whisper_model st.
Proof.
  unfold record_audio, sd_rec_call, write_file, call, history.
  unfold_monad. cbn [fst snd trace fs whisper_model].
  destruct (D * R <? 0); cbn [fst snd whisper_model]; [reflexivity|].
  destruct (sd_rec w (trace st) (D * R) R C device) as [signal|e];
    cbn [fst snd trace fs whisper_model]; [|reflexivity].
  destruct (sd_wait w _) as [u|e]; cbn [fst snd trace fs whisper_model];
    [|reflexivity].
  destruct (NamedTemporaryFile w _) as [path|e];
    cbn [fst snd trace fs whisper_model]; [|reflexivity].
  destruct (wave_open_file w _ path) as [u'|e];
    cbn [fst snd trace fs whisper_model]; [|reflexivity].
  destruct (Audio.setnchannels C Audio.wave_open) as [w1|e];
    cbn [fst snd whisper_model]; [|reflexivity].
  destruct (Audio.setsampwidth 2 w1) as [w2|e];
    cbn [fst snd whisper_model]; [|reflexivity].
  destruct (Audio.setframerate R w2) as [w3|e];
    cbn [fst snd whisper_model]; [|reflexivity].
  destruct (Audio.writeframes _ w3) as [w4|e];
    cbn [fst snd trace whisper_model]; [|reflexivity].
  destruct (wave_flush w _ path) as [[e leftover]|]; reflexivity.
Qed.

Lemma model_captured w device ev st :
  whisper_model (captured w device (listened ev st)) = whisper_model st.
Proof.
  unfold captured. rewrite model_record_audio. cbn [print snd whisper_model].
  apply model_listened.
Qed.

Lemma captured_holds_artifact w device st0 path :
  fst (record_audio w device 16000 1 10
         (snd (print "Wake word detected! " st0))) = Ok path ->
  is_Some (fs (captured w device st0) !! path).
Proof.
  intros H. destruct (record_audio_ok _ _ _ _ _ _ _ H) as (? & _ & _ & _ & Hf).
  unfold captured. rewrite Hf. eauto.
Qed.

(** X6. In every turn that got its recording, with the model loaded,
    the calls after the capture are fixed by the collaborators' answers:
    transcription of the artifact; if it returns a text, inference on that
    text; if that returns an answer, [say] of the answer stripped; if that
    returns, [runAndWait]; and no stage is called after one that raised.
    The removal of the artifact is always the last call, and the turn ends
    as the first stage that raised, or as [runAndWait]. *)
Theorem stages_run_in_order
    (w : World) (device : option Z) (ev : console) (st : State)
    (path : string) :
  whisper_model st = true ->
  fst (detect_wake_word ev st) = Ok true ->
  fst (record_audio w device 16000 1 10
         (snd (print "Wake word detected! " (listened ev st)))) = Ok path ->
  let st1 := captured w device (listened ev st) in
  let h := trace st1 in
  trace (snd (turn w device ev st))
  = h ++
    match whisper_transcribe w h path (fs st1 !! path) with
    | Raise _ => [EvTranscribe path]
    | Ok text =>
        EvTranscribe path :: EvGenerate text ::
        match generate_content w (h ++ [EvTranscribe path]) text with
        | Ok (Ok answer) =>
            EvSay (PyStr.strip answer) ::
            match tts_say w (h ++ [EvTranscribe path; EvGenerate text])
                    (PyStr.strip answer) with
            | Ok _ => [EvRunAndWait]
            | Raise _ => []
            end
        | _ => []
        end
    end ++ [EvRemove path]
  /\ fst (turn w device ev st)
     = match whisper_transcribe w h path (fs st1 !! path) with
       | Raise e => Raise e
       | Ok text =>
           match generate_content w (h ++ [EvTranscribe path]) text with
           | Raise e | Ok (Raise e) => Raise e
           | Ok (Ok answer) =>
               match tts_say w (h ++ [EvTranscribe path; EvGenerate text])
                       (PyStr.strip answer) with
               | Raise e => Raise e
               | Ok _ =>
                   tts_runAndWait w
                     (h ++ [EvTranscribe path; EvGenerate text;
                            EvSay (PyStr.strip answer)])
               end
           end
       end.
Proof.
  intros Hm H0 H1 st1 h.
  rewrite (turn_woke _ _ _ _ _ H0 H1), try_finally_release. cbn [fst snd].
  fold st1.
  assert (Hm1 : whisper_model st1 = true)
    by (unfold st1; rewrite model_captured; exact Hm).
  destruct (pipeline_exact w path st1 Hm1) as [Ht Ho]. fold h in Ht, Ho.
  split; [|exact Ho].
  rewrite release_run, fs_pipeline.
  destruct (captured_holds_artifact w device _ path H1) as [f Hf].
  fold st1 in Hf. rewrite Hf in *. cbn [snd trace].
  rewrite Ht, <- app_assoc. reflexivity.
Qed.

Lemma stages_run_in_order_witness :
  trace (snd (turn padded None (Line "jarvis") (ready ∅)))
  = trace (captured padded None (listened (Line "jarvis") (ready ∅)))
    ++ [EvTranscribe Worlds.tmp0; EvGenerate "hello"; EvSay "Paris.";
        EvRunAndWait] ++ [EvRemove Worlds.tmp0]
  /\ fst (turn padded None (Line "jarvis") (ready ∅)) = Ok tt.
Proof.
  pose proof (stages_run_in_order padded None (Line "jarvis") (ready ∅)
                Worlds.tmp0 eq_refl) as H.
  apply H; vm_compute; reflexivity.
Defined.

(** X7. When transcription raises, the turn ends with that exception, the
    artifact is gone, and neither the inference nor the playback
    collaborator was called during the turn. *)
Theorem failed_transcription_skips_the_rest
    (w : World) (device : option Z) (ev : console) (st : State)
    (path : string) (e : exn) :
  fst (detect_wake_word ev st) = Ok true ->
  fst (record_audio w device 16000 1 10
         (snd (print "Wake word detected! " (listened ev st)))) = Ok path ->
  fst (transcribe_whisper_local w path (captured w device (listened ev st)))
  = Raise e ->
  fst (turn w device ev st) = Raise e
  /\ calls is_inference (snd (turn w device ev st)) = calls is_inference st
  /\ calls is_playback (snd (turn w device ev st)) = calls is_playback st
  /\ fs (snd (turn w device ev st)) !! path = None.
Proof.
  intros H0 H1 H2.
  rewrite (turn_woke _ _ _ _ _ H0 H1), try_finally_release. cbn [fst snd].
  rewrite pipeline_run.
  pose proof (emits_calls is_transcription is_inference
                (transcribe_whisper_local w path)
                (captured w device (listened ev st))) as Hi.
  pose proof (emits_calls is_transcription is_playback
                (transcribe_whisper_local w path)
                (captured w device (listened ev st))) as Hp.
  destruct (transcribe_whisper_local w path _) as [r2 st2].
  cbn [fst snd] in H2, Hi, Hp. subst r2. cbn [fst snd].
  split; [reflexivity|].
  rewrite !calls_released by kinds.
  rewrite Hi, Hp by (kinds || apply emits_transcribe).
  rewrite !calls_captured, !calls_listened by kinds.
  split; [reflexivity|]. split; [reflexivity|]. apply release_absent_after.
Qed.

Lemma failed_transcription_skips_the_rest_witness :
  fst (turn Worlds.deaf None (Line "jarvis") (ready ∅))
  = Raise (LibraryError "TranscriptionError")
  /\ calls is_inference (snd (turn Worlds.deaf None (Line "jarvis") (ready ∅)))
     = calls is_inference (ready ∅)
  /\ calls is_playback (snd (turn Worlds.deaf None (Line "jarvis") (ready ∅)))
     = calls is_playback (ready ∅)
  /\ fs (snd (turn Worlds.deaf None (Line "jarvis") (ready ∅))) !! Worlds.tmp0
     = None.
Proof.
  apply (failed_transcription_skips_the_rest Worlds.deaf None (Line "jarvis")
           (ready ∅) Worlds.tmp0); vm_compute; reflexivity.
Defined.

(** ** Files *)

Lemma fs_listened ev st : fs (listened ev st) = fs st.
Proof.
  unfold listened, detect_wake_word, input. unfold_monad.
  destruct ev; reflexivity.
Qed.

Lemma fs_print line st : fs (snd (print line st)) = fs st.
Proof. reflexivity. Qed.

Lemma trace_print line st : trace (snd (print line st)) = trace st.
Proof. reflexivity. Qed.

(** How [record_audio] can end when the channel count and the rate are
    valid: before the temporary file exists, with the file system as it
    was; at or after [wave.open], with whatever the failed write left at the
    path; or with the path of the written container. *)
Lemma record_audio_cases w device R C D st :
  1 <= C -> 0 < R ->
  (exists e pre,
      fst (record_audio w device R C D st) = Raise e
      /\ fs (snd (record_audio w device R C D st)) = fs st
      /\ trace (snd (record_audio w device R C D st)) = trace st ++ pre
      /\ pre `prefix_of` [EvRec (D * R) R C device; EvWait; EvTempFile])
  \/ (exists e path leftover,
        fst (record_audio w device R C D st) = Raise e
        /\ fs (snd (record_audio w device R C D st))
           = <[path := leftover]> (fs st)
        /\ trace (snd (record_audio w device R C D st))
           = trace st ++ [EvRec (D * R) R C device; EvWait; EvTempFile;
                          EvWaveOpen path])
  \/ (exists path f,
        fst (record_audio w device R C D st) = Ok path
        /\ fs (snd (record_audio w device R C D st)) = <[path := f]> (fs st)
        /\ trace (snd (record_audio w device R C D st))
           = trace st ++ [EvRec (D * R) R C device; EvWait; EvTempFile;
                          EvWaveOpen path]).
Proof.
  intros HC HR.
  unfold record_audio, sd_rec_call, write_file, call, history.
  unfold_monad. cbn [fst snd trace fs].
  destruct (D * R <? 0); cbn [fst snd trace fs].
  { left. eexists _, [EvRec (D * R) R C device].
    split; [reflexivity|]. split; [reflexivity|].
    split; [reflexivity | eexists; reflexivity]. }
  destruct (sd_rec w (trace st) (D * R) R C device) as [signal|e];
    cbn [fst snd trace fs].
  2: { left. eexists _, [EvRec (D * R) R C device].
       split; [reflexivity|]. split; [reflexivity|].
       split; [reflexivity | eexists; reflexivity]. }
  destruct (sd_wait w _) as [u|e]; cbn [fst snd trace fs].
  2: { left. eexists _, [EvRec (D * R) R C device; EvWait].
       split; [reflexivity|]. split; [reflexivity|].
       split; [rewrite <- !app_assoc; reflexivity | eexists; reflexivity]. }
  destruct (NamedTemporaryFile w _) as [path|e]; cbn [fst snd trace fs].
  2: { left. eexists _, [EvRec (D * R) R C device; EvWait; EvTempFile].
       split; [reflexivity|]. split; [reflexivity|].
       split; [rewrite <- !app_assoc; reflexivity | reflexivity]. }
  destruct (wave_open_file w _ path) as [u'|e]; cbn [fst snd trace fs].
  2: { right. left. exists e, path, EmptyFile. rewrite <- !app_assoc.
       split; [reflexivity|]. split; reflexivity. }
  unfold Audio.setnchannels, Audio.setsampwidth, Audio.setframerate,
    Audio.writeframes, Audio.wave_open.
  destruct (C <? 1) eqn:HC1; [lia|].
  cbn [Audio.nchannels Audio.sampwidth Audio.framerate Audio.nframeswritten
       Audio.data].
  change ((2 <? 1) || (4 <? 2)) with false. cbv iota.
  destruct (R <=? 0) eqn:HR1; [lia|].
  cbn [Audio.nchannels Audio.sampwidth Audio.framerate Audio.nframeswritten
       Audio.data].
  destruct (C =? 0) eqn:HC0; [lia|].
  change (2 =? 0) with false. cbv iota.
  destruct (R =? 0) eqn:HR0; [lia|].
  cbn [fst snd trace fs].
  destruct (wave_flush w _ path) as [[e leftover]|]; cbn [fst snd trace fs].
  - right. left. exists e, path, leftover. rewrite <- !app_assoc.
    split; [reflexivity|]. split; [apply insert_insert_eq | reflexivity].
  - right. right. eexists path, _. rewrite <- !app_assoc.
    split; [reflexivity|]. split; [apply insert_insert_eq | reflexivity].
Qed.

Lemma turn_not_woken w device ev st e :
  fst (detect_wake_word ev st) = Raise e ->
  turn w device ev st = (Raise e, listened ev st).
Proof.
  intros H. unfold turn, listened. rewrite bind_run.
  destruct (detect_wake_word ev st) as [r st0]. simpl in *. subst r.
  reflexivity.
Qed.

(** The three ways of [record_audio], for the capture of a turn. *)
Lemma captured_cases w device ev st :
  (exists e pre,
      fst (record_audio w device 16000 1 10
             (snd (print "Wake word detected! " (listened ev st)))) = Raise e
      /\ fs (captured w device (listened ev st)) = fs st
      /\ trace (captured w device (listened ev st))
         = trace (listened ev st) ++ pre
      /\ pre `prefix_of` [EvRec 160000 16000 1 device; EvWait; EvTempFile])
  \/ (exists e path leftover,
        fst (record_audio w device 16000 1 10
               (snd (print "Wake word detected! " (listened ev st))))
        = Raise e
        /\ fs (captured w device (listened ev st))
           = <[path := leftover]> (fs st)
        /\ trace (captured w device (listened ev st))
           = trace (listened ev st)
             ++ [EvRec 160000 16000 1 device; EvWait; EvTempFile;
                 EvWaveOpen path])
  \/ (exists path f,
        fst (record_audio w device 16000 1 10
               (snd (print "Wake word detected! " (listened ev st))))
        = Ok path
        /\ fs (captured w device (listened ev st)) = <[path := f]> (fs st)
        /\ trace (captured w device (listened ev st))
           = trace (listened ev st)
             ++ [EvRec 160000 16000 1 device; EvWait; EvTempFile;
                 EvWaveOpen path]).
Proof.
  pose proof (record_audio_cases w device 16000 1 10
                (snd (print "Wake word detected! " (listened ev st)))
                ltac:(lia) ltac:(lia)) as H.
  change (10 * 16000) with 160000 in H.
  rewrite !fs_print, !trace_print, !fs_listened in H.
  exact H.
Qed.


(** What a turn does to the files, told by its trace: it changes nothing
    at a path it did not open for writing; it adds a file only by ending
    inside the writing of that file. *)
Lemma turn_frame w device ev st :
  exists tail,
    trace (snd (turn w device ev st)) = trace st ++ tail
    /\ (forall q, ~ In (EvWaveOpen q) tail ->
                  fs (snd (turn w device ev st)) !! q = fs st !! q)
    /\ (forall q, fs st !! q = None ->
                  fs (snd (turn w device ev st)) !! q <> None ->
                  (exists e, fst (turn w device ev st) = Raise e)
                  /\ exists pre, tail = pre ++ [EvWaveOpen q]).
Proof.
  destruct (emits_detect_wake_word ev st) as (t0 & Ht0 & _).
  fold (listened ev st) in Ht0.
  assert (Hidle : fs (snd (turn w device ev st)) = fs st ->
                  trace (snd (turn w device ev st)) = trace st ++ t0 ->
                  exists tail,
                    trace (snd (turn w device ev st)) = trace st ++ tail
                    /\ (forall q, ~ In (EvWaveOpen q) tail ->
                          fs (snd (turn w device ev st)) !! q = fs st !! q)
                    /\ (forall q, fs st !! q = None ->
                          fs (snd (turn w device ev st)) !! q <> None ->
                          (exists e, fst (turn w device ev st) = Raise e)
                          /\ exists pre, tail = pre ++ [EvWaveOpen q])).
  { intros Hfs Htr. exists t0. split; [exact Htr|]. rewrite Hfs.
    split; [reflexivity|]. intros q Hq Hn. contradiction. }
  destruct (fst (detect_wake_word ev st)) as [[|]|e] eqn:H0.
  2: { apply Hidle; rewrite (turn_asleep _ _ _ _ H0);
         [apply fs_listened | exact Ht0]. }
  2: { apply Hidle; rewrite (turn_not_woken _ _ _ _ _ H0);
         [apply fs_listened | exact Ht0]. }
  clear Hidle.
  destruct (captured_cases w device ev st)
    as [(e & pre & H1 & Hfs & Htr & _)
       | [(e & path & leftover & H1 & Hfs & Htr)
         | (path & f & H1 & Hfs & Htr)]].
  - rewrite (turn_not_captured _ _ _ _ _ H0 H1). cbn [fst snd].
    exists (t0 ++ pre). rewrite Htr, Ht0, Hfs, app_assoc.
    split; [reflexivity|]. split; [reflexivity|].
    intros q Hq Hn. contradiction.
  - rewrite (turn_not_captured _ _ _ _ _ H0 H1). cbn [fst snd].
    exists (t0 ++ [EvRec 160000 16000 1 device; EvWait; EvTempFile;
                   EvWaveOpen path]).
    rewrite Htr, Ht0, Hfs, app_assoc. split; [reflexivity|]. split.
    + intros q Hq. apply lookup_insert_ne. intros ->. apply Hq.
      apply in_or_app. right. simpl. auto.
    + intros q Hq Hn. split; [eauto|].
      destruct (decide (path = q)) as [<-|Hne].
      * exists (t0 ++ [EvRec 160000 16000 1 device; EvWait; EvTempFile]).
        rewrite <- app_assoc. reflexivity.
      * rewrite lookup_insert_ne in Hn by exact Hne. contradiction.
  - rewrite (turn_woke _ _ _ _ _ H0 H1), try_finally_release. cbn [fst snd].
    destruct (emits_try_finally is_turn_event (pipeline w path)
                (release path)
                ltac:(apply (emits_weaken is_collaborator);
                      [kinds | apply emits_pipeline])
                ltac:(apply (emits_weaken is_removal);
                      [kinds | apply emits_release])
                (captured w device (listened ev st)))
      as (t2 & Ht2 & _).
    rewrite try_finally_release in Ht2. cbn [snd] in Ht2.
    exists (t0 ++ [EvRec 160000 16000 1 device; EvWait; EvTempFile;
                   EvWaveOpen path] ++ t2).
    assert (Hfs' : fs (snd (release path
                              (snd (pipeline w path
                                      (captured w device (listened ev st))))))
                   = delete path (fs st)).
    { rewrite release_run, fs_pipeline, Hfs, lookup_insert_eq. cbn [fs].
      apply delete_insert_eq. }
    rewrite Ht2, Htr, Ht0, Hfs', <- !app_assoc.
    split; [reflexivity|]. split.
    + intros q Hq. apply lookup_delete_ne. intros ->. apply Hq.
      apply in_or_app. right. simpl. auto.
    + intros q Hq Hn. exfalso. apply Hn.
      destruct (decide (path = q)) as [<-|Hne];
        [apply lookup_delete_eq | rewrite lookup_delete_ne by exact Hne].
      exact Hq.
Qed.

(** X9. However a run of the loop ends, it has changed nothing at any
    path it did not open as a temporary recording; and a file that was not
    there before is there afterwards only if the run ended, by an
    exception, inside the writing of that very file - the last call of the
    run is the [wave.open] of its path. *)
Theorem main_loop_file_effects
    (w : World) (device : option Z) (inputs : list console) (st : State) :
  exists tail,
    trace (snd (main_loop w device inputs st)) = trace st ++ tail
    /\ (forall q, ~ In (EvWaveOpen q) tail ->
                  fs (snd (main_loop w device inputs st)) !! q = fs st !! q)
    /\ (forall q, fs st !! q = None ->
                  fs (snd (main_loop w device inputs st)) !! q <> None ->
                  exists pre, tail = pre ++ [EvWaveOpen q]).
Proof.
  revert st. induction inputs as [|ev rest IH]; intros st.
  - cbn [main_loop].
    destruct (turn_frame w device Eof st) as (tail & Ht & Hfr & Hnew).
    exists tail. split; [exact Ht|]. split; [exact Hfr|].
    intros q Hq Hn. apply (Hnew q Hq Hn).
  - rewrite main_loop_cons.
    destruct (turn_frame w device ev st) as (t1 & Ht1 & Hfr1 & Hnew1).
    destruct (turn w device ev st) as [[u|e] st'] eqn:Hturn;
      cbn [fst snd] in *.
    + destruct (IH st') as (t2 & Ht2 & Hfr2 & Hnew2).
      exists (t1 ++ t2). rewrite Ht2, Ht1, app_assoc.
      split; [reflexivity|]. split.
      * intros q Hq. rewrite Hfr2, Hfr1; [reflexivity | |];
          intros Hin; apply Hq; apply in_or_app; auto.
      * intros q Hq Hn.
        assert (Hq' : fs st' !! q = None).
        { destruct (fs st' !! q) eqn:E; [|reflexivity].
          destruct (Hnew1 q Hq) as [[e He] _]; [congruence | discriminate]. }
        destruct (Hnew2 q Hq' Hn) as [pre ->].
        exists (t1 ++ pre). rewrite app_assoc. reflexivity.
    + exists t1. split; [exact Ht1|]. split; [exact Hfr1|].
      intros q Hq Hn. apply (Hnew1 q Hq Hn).
Qed.

(** ** Captures that fail *)

(** X15. The capture runs outside the [try]: when [record_audio] raises,
    the turn ends with that exception at once and makes no transcription,
    inference, playback or removal call.  If the failure came before
    [wave.open], no file was changed; if it came at [wave.open] or later, the
    temporary file, created with [delete=False], stays on disk with
    whatever the failed write left in it. *)
Theorem failed_capture_skips_the_rest
    (w : World) (device : option Z) (ev : console) (st : State) (e : exn) :
  fst (detect_wake_word ev st) = Ok true ->
  fst (record_audio w device 16000 1 10
         (snd (print "Wake word detected! " (listened ev st)))) = Raise e ->
  fst (turn w device ev st) = Raise e
  /\ calls is_transcription (snd (turn w device ev st))
     = calls is_transcription st
  /\ calls is_inference (snd (turn w device ev st)) = calls is_inference st
  /\ calls is_playback (snd (turn w device ev st)) = calls is_playback st
  /\ calls is_removal (snd (turn w device ev st)) = calls is_removal st
  /\ ((fs (snd (turn w device ev st)) = fs st
       /\ exists pre,
            trace (snd (turn w device ev st)) = trace (listened ev st) ++ pre
            /\ pre `prefix_of`
                 [EvRec 160000 16000 1 device; EvWait; EvTempFile])
      \/ exists path leftover,
           fs (snd (turn w device ev st)) = <[path := leftover]> (fs st)
           /\ trace (snd (turn w device ev st))
              = trace (listened ev st)
                ++ [EvRec 160000 16000 1 device; EvWait; EvTempFile;
                    EvWaveOpen path]).
Proof.
  intros H0 H1. rewrite (turn_not_captured _ _ _ _ _ H0 H1). cbn [fst snd].
  rewrite !calls_captured, !calls_listened by kinds.
  do 5 (split; [reflexivity|]).
  destruct (captured_cases w device ev st)
    as [(e' & pre & _ & Hfs & Htr & Hpre)
       | [(e' & path & leftover & _ & Hfs & Htr)
         | (path & f & H1' & _)]].
  - left. eauto.
  - right. eauto.
  - congruence.
Qed.

(** The microphone cannot be opened. *)
Definition no_microphone : World :=
  {| environ := Worlds.with_key;
     pyttsx3_init := Ok tt;
     genai_configure := fun _ => Ok tt;
     genai_GenerativeModel := fun _ => Ok tt;
     parse_args := Ok None;
     whisper_load_model := Ok tt;
     sd_rec := fun _ _ _ _ _ => Raise (LibraryError "CaptureError");
     sd_wait := fun _ => Ok tt;
     NamedTemporaryFile := fun _ => Ok Worlds.tmp0;
     wave_open_file := fun _ _ => Ok tt;
     wave_flush := fun _ _ => None;
     whisper_transcribe := fun _ _ _ => Ok "hello";
     generate_content := fun _ _ => Ok (Ok "Hi.");
     tts_say := fun _ _ => Ok tt;
     tts_runAndWait := fun _ => Ok tt |}.

(** The disk fills up while the frames are written. *)
Definition write_fails : World :=
  {| environ := Worlds.with_key;
     pyttsx3_init := Ok tt;
     genai_configure := fun _ => Ok tt;
     genai_GenerativeModel := fun _ => Ok tt;
     parse_args := Ok None;
     whisper_load_model := Ok tt;
     sd_rec := fun _ _ _ _ _ => Ok (fun _ _ => 7);
     sd_wait := fun _ => Ok tt;
     NamedTemporaryFile := fun _ => Ok Worlds.tmp0;
     wave_open_file := fun _ _ => Ok tt;
     wave_flush := fun _ _ => Some (LibraryError "OSError", EmptyFile);
     whisper_transcribe := fun _ _ _ => Ok "hello";
     generate_content := fun _ _ => Ok (Ok "Hi.");
     tts_say := fun _ _ => Ok tt;
     tts_runAndWait := fun _ => Ok tt |}.

Lemma failed_capture_skips_the_rest_witness :
  fst (turn write_fails None (Line "jarvis") (ready ∅))
  = Raise (LibraryError "OSError")
  /\ calls is_transcription
       (snd (turn write_fails None (Line "jarvis") (ready ∅)))
     = calls is_transcription (ready ∅)
  /\ calls is_inference
       (snd (turn write_fails None (Line "jarvis") (ready ∅)))
     = calls is_inference (ready ∅)
  /\ calls is_playback
       (snd (turn write_fails None (Line "jarvis") (ready ∅)))
     = calls is_playback (ready ∅)
  /\ calls is_removal
       (snd (turn write_fails None (Line "jarvis") (ready ∅)))
     = calls is_removal (ready ∅)
  /\ ((fs (snd (turn write_fails None (Line "jarvis") (ready ∅)))
       = fs (ready ∅)
       /\ exists pre,
            trace (snd (turn write_fails None (Line "jarvis") (ready ∅)))
            = trace (listened (Line "jarvis") (ready ∅)) ++ pre
            /\ pre `prefix_of`
                 [EvRec 160000 16000 1 None; EvWait; EvTempFile])
      \/ exists path leftover,
           fs (snd (turn write_fails None (Line "jarvis") (ready ∅)))
           = <[path := leftover]> (fs (ready ∅))
           /\ trace (snd (turn write_fails None (Line "jarvis") (ready ∅)))
              = trace (listened (Line "jarvis") (ready ∅))
                ++ [EvRec 160000 16000 1 None; EvWait; EvTempFile;
                    EvWaveOpen path]).
Proof.
  apply (failed_capture_skips_the_rest write_fails None (Line "jarvis")
           (ready ∅)); vm_compute; reflexivity.
Defined.

(** The two failures, evaluated: a microphone that cannot be opened leaves
    no file; a write that fails leaves the temporary file, and the run
    ends there. *)
Example capture_failures :
  fs (snd (turn no_microphone None (Line "jarvis") (ready ∅))) !! Worlds.tmp0
  = None
  /\ fs (snd (turn write_fails None (Line "jarvis") (ready ∅))) !! Worlds.tmp0
     = Some EmptyFile
  /\ fst (main_loop write_fails None [Line "jarvis"; Line "jarvis"; CtrlC]
            (ready ∅))
     = Raise (LibraryError "OSError")
  /\ trace (snd (main_loop write_fails None
                   [Line "jarvis"; Line "jarvis"; CtrlC] (ready ∅)))
     = [EvInput wake_prompt; EvRec 160000 16000 1 None; EvWait; EvTempFile;
        EvWaveOpen Worlds.tmp0].
Proof. vm_compute. repeat split. Qed.

(** ** What transcription is given *)

Lemma recorded_frame_count (n C : Z) (signal : nat -> nat -> Z) :
  0 <= n -> 1 <= C ->
  Z.of_nat
    (length (Audio.tobytes
               (Audio.mk_recording (Z.to_nat n) (Z.to_nat C) signal)))
  / (2 * C) = n.
Proof.
  intros Hn HC.
  pose proof (mk_recording_frames (Z.to_nat n) (Z.to_nat C) signal) as Hf.
  assert (Hw : Forall (fun f => length f = Z.to_nat C)
                 (Audio.mk_recording (Z.to_nat n) (Z.to_nat C) signal))
    by (eapply Forall_impl; [exact Hf|]; simpl; tauto).
  rewrite (length_tobytes _ _ Hw), mk_recording_length.
  replace (Z.of_nat (2 * (Z.to_nat C * Z.to_nat n))) with (n * (2 * C))
    by lia.
  apply Z.div_mul. lia.
Qed.

(** X10. In a turn run with the model loaded, the first call after the
    capture is the transcription of the path the capture returned, and at
    that moment the path holds a complete WAV file: mono, 16-bit, 16 kHz,
    160000 frames (ten seconds).  What the collaborator answers about that
    file decides the turn: if it raises, the turn ends with its exception
    and only the removal follows; if it returns a text, the next call is
    the inference on that text. *)
Theorem transcription_receives_the_recording
    (w : World) (device : option Z) (ev : console) (st : State)
    (path : string) :
  whisper_model st = true ->
  fst (detect_wake_word ev st) = Ok true ->
  fst (record_audio w device 16000 1 10
         (snd (print "Wake word detected! " (listened ev st)))) = Ok path ->
  exists wf,
    fs (captured w device (listened ev st)) !! path = Some (WavFile wf)
    /\ Audio.nchannels wf = 1
    /\ Audio.sampwidth wf = 2
    /\ Audio.framerate wf = 16000
    /\ Audio.nframeswritten wf = 160000
    /\ match whisper_transcribe w
               (trace (captured w device (listened ev st))) path
               (Some (WavFile wf)) with
       | Raise e =>
           fst (turn w device ev st) = Raise e
           /\ trace (snd (turn w device ev st))
              = trace (captured w device (listened ev st))
                ++ [EvTranscribe path; EvRemove path]
       | Ok text =>
           exists tail,
             trace (snd (turn w device ev st))
             = trace (captured w device (listened ev st))
               ++ EvTranscribe path :: EvGenerate text :: tail
       end.
Proof.
  intros Hm H0 H1.
  destruct (record_audio_ok _ _ _ _ _ _ _ H1)
    as (signal & Hn & HC & HR & Hfile).
  rewrite (recorded_frame_count (10 * 16000) 1 signal Hn HC) in Hfile.
  fold (captured w device (listened ev st)) in Hfile.
  eexists. split; [exact Hfile|].
  cbn [Audio.nchannels Audio.sampwidth Audio.framerate Audio.nframeswritten].
  do 4 (split; [reflexivity|]).
  rewrite (turn_woke _ _ _ _ _ H0 H1), try_finally_release. cbn [fst snd].
  assert (Hm1 : whisper_model (captured w device (listened ev st)) = true)
    by (rewrite model_captured; exact Hm).
  destruct (pipeline_exact w path _ Hm1) as [Ht Ho].
  rewrite release_run, fs_pipeline, Hfile. cbn [snd trace].
  rewrite Ht, Ho, Hfile.
  match goal with
  | |- match ?x with _ => _ end => destruct x as [text|e]
  end.
  - eexists. rewrite <- app_assoc. reflexivity.
  - split; [reflexivity|]. rewrite <- app_assoc. reflexivity.
Qed.

Lemma transcription_receives_the_recording_witness :
  exists wf,
    fs (captured Worlds.deaf None (listened (Line "jarvis") (ready ∅)))
      !! Worlds.tmp0 = Some (WavFile wf)
    /\ Audio.nchannels wf = 1
    /\ Audio.sampwidth wf = 2
    /\ Audio.framerate wf = 16000
    /\ Audio.nframeswritten wf = 160000
    /\ match whisper_transcribe Worlds.deaf
               (trace (captured Worlds.deaf None
                         (listened (Line "jarvis") (ready ∅))))
               Worlds.tmp0 (Some (WavFile wf)) with
       | Raise e =>
           fst (turn Worlds.deaf None (Line "jarvis") (ready ∅)) = Raise e
           /\ trace (snd (turn Worlds.deaf None (Line "jarvis") (ready ∅)))
              = trace (captured Worlds.deaf None
                         (listened (Line "jarvis") (ready ∅)))
                ++ [EvTranscribe Worlds.tmp0; EvRemove Worlds.tmp0]
       | Ok text =>
           exists tail,
             trace (snd (turn Worlds.deaf None (Line "jarvis") (ready ∅)))
             = trace (captured Worlds.deaf None
                        (listened (Line "jarvis") (ready ∅)))
               ++ EvTranscribe Worlds.tmp0 :: EvGenerate text :: tail
       end.
Proof.
  apply (transcription_receives_the_recording Worlds.deaf None
           (Line "jarvis") (ready ∅) Worlds.tmp0); vm_compute; reflexivity.
Defined.

(** ** Start-up and the loop *)

Lemma main_loop_trace w device inputs st :
  exists rest,
    trace (snd (main_loop w device inputs st)) = trace st ++ rest
    /\ forallb is_turn_event rest = true.
Proof. apply emits_main_loop. Qed.

(** Runs a sequence of calls and prints whose outcomes are known. *)
Ltac run_startup :=
  repeat (first [ rewrite bind_run
                | rewrite call_run
                | rewrite print_run
                | match goal with
                  | H : _ = Ok _ |- _ => rewrite H
                  | H : _ = Raise _ |- _ => rewrite H
                  end ];
          cbv beta iota).

Ltac traces :=
  repeat (rewrite trace_logged || rewrite trace_printed);
  rewrite <- ?app_assoc.

(** Closes a branch in which a start-up call raised. *)
Ltac stopped := cbn [fst snd]; traces; split; reflexivity.

(** X11. A run of the program makes its start-up calls in the order speech
    engine, [genai.configure] with the value of the credential variable,
    model handle, argument parsing, Whisper model.  The first of them that
    raises ends the program with its exception, no later call being made;
    when all five return, the program is the loop, entered with the model
    loaded and the device that was parsed, and what the loop adds to the
    trace are calls of turns only: none of the five is made again. *)
Theorem startup_happens_once
    (w : World) (inputs : list console) (st : State) :
  match pyttsx3_init w with
  | Raise e =>
      fst (program w inputs st) = Raise e
      /\ trace (snd (program w inputs st)) = trace st ++ [EvTtsInit]
  | Ok _ =>
  match genai_configure w (environ w !! "GOOGLE_API_KEY") with
  | Raise e =>
      fst (program w inputs st) = Raise e
      /\ trace (snd (program w inputs st))
         = trace st ++ [EvTtsInit; EvConfigure (environ w !! "GOOGLE_API_KEY")]
  | Ok _ =>
  match genai_GenerativeModel w "gemini-1.5-flash" with
  | Raise e =>
      fst (program w inputs st) = Raise e
      /\ trace (snd (program w inputs st))
         = trace st ++ [EvTtsInit; EvConfigure (environ w !! "GOOGLE_API_KEY");
                        EvGenerativeModel "gemini-1.5-flash"]
  | Ok _ =>
  match parse_args w with
  | Raise e =>
      fst (program w inputs st) = Raise e
      /\ trace (snd (program w inputs st))
         = trace st ++ [EvTtsInit; EvConfigure (environ w !! "GOOGLE_API_KEY");
                        EvGenerativeModel "gemini-1.5-flash"; EvParseArgs]
  | Ok device =>
  match whisper_load_model w with
  | Raise e =>
      fst (program w inputs st) = Raise e
      /\ trace (snd (program w inputs st))
         = trace st ++ [EvTtsInit; EvConfigure (environ w !! "GOOGLE_API_KEY");
                        EvGenerativeModel "gemini-1.5-flash"; EvParseArgs;
                        EvLoadWhisper]
  | Ok _ =>
      exists st' rest,
        program w inputs st = main_loop w device inputs st'
        /\ trace st'
           = trace st ++ [EvTtsInit;
                          EvConfigure (environ w !! "GOOGLE_API_KEY");
                          EvGenerativeModel "gemini-1.5-flash"; EvParseArgs;
                          EvLoadWhisper]
        /\ whisper_model st' = true
        /\ fs st' = fs st
        /\ trace (snd (program w inputs st)) = trace st' ++ rest
        /\ forallb is_turn_event rest = true
  end end end end end.
Proof.
  unfold program, module_init, main, load_whisper_model.
  destruct (pyttsx3_init w) as [[]|e1] eqn:H1.
  2: { run_startup. stopped. }
  destruct (genai_configure w (environ w !! "GOOGLE_API_KEY"))
    as [[]|e2] eqn:H2.
  2: { run_startup. stopped. }
  destruct (genai_GenerativeModel w "gemini-1.5-flash") as [[]|e3] eqn:H3.
  2: { run_startup. stopped. }
  destruct (parse_args w) as [device|e4] eqn:H4.
  2: { run_startup. stopped. }
  destruct (whisper_load_model w) as [[]|e5] eqn:H5.
  2: { run_startup. stopped. }
  run_startup. cbn [set_whisper_model]. cbv beta iota.
  match goal with
  | |- context [main_loop w device inputs ?s] =>
      destruct (main_loop_trace w device inputs s) as (rest & Ht & Hall);
      exists s, rest
  end.
  split; [reflexivity|].
  split; [cbn [trace]; traces; reflexivity|].
  split; [reflexivity|]. split; [reflexivity|].
  split; [exact Ht | exact Hall].
Qed.

(** A capture call, if [e] is one, asks for ten seconds at 16 kHz, mono,
    on the given device. *)
Definition fixed_capture (device : option Z) (e : event) : bool :=
  match e with
  | EvRec frames samplerate channels d =>
      (frames =? 160000) && (samplerate =? 16000) && (channels =? 1)
      && bool_decide (d = device)
  | _ => true
  end.

Lemma emits_fixed_capture_turn w device ev :
  emits (fixed_capture device) (turn w device ev).
Proof.
  assert (Hrec : fixed_capture device (EvRec (10 * 16000) 16000 1 device)
                 = true).
  { simpl. apply bool_decide_eq_true_2. reflexivity. }
  unfold turn.
  apply emits_bind;
    [apply (emits_weaken is_input); [kinds | apply emits_detect_wake_word]|].
  intros [|]; [|apply emits_ret].
  apply emits_bind; [apply emits_print|]. intros _.
  apply emits_bind.
  { unfold record_audio, sd_rec_call, write_file.
    apply emits_bind; [apply emits_print|]. intros _.
    apply emits_bind.
    { apply emits_bind; [apply emits_gets|]. intros h.
      apply emits_bind; [apply emits_emit, Hrec|]. intros _. emits_auto. }
    intros recording. emits_auto. }
  intros path. apply emits_try_finally.
  - unfold pipeline.
    apply emits_bind;
      [apply (emits_weaken is_transcription);
       [kinds | apply emits_transcribe]|].
    intros text. apply emits_bind; [apply emits_print|]. intros _.
    apply emits_bind;
      [apply (emits_weaken is_inference); [kinds | apply emits_ask_gemini]|].
    intros reply. apply emits_bind; [apply emits_print|]. intros _.
    apply (emits_weaken is_playback); [kinds | apply emits_speak].
  - apply (emits_weaken is_removal); [kinds | apply emits_release].
Qed.

Lemma emits_fixed_capture_loop w device inputs :
  emits (fixed_capture device) (main_loop w device inputs).
Proof.
  induction inputs as [|ev rest IH]; simpl.
  - apply emits_fixed_capture_turn.
  - apply emits_bind; [apply emits_fixed_capture_turn | intros _; exact IH].
Qed.

(** X12. Every capture the loop asks for is the same request: 160000
    frames at 16 kHz on one channel, on the device chosen on the command
    line.  The length of a recording never depends on what was heard or on
    earlier turns. *)
Theorem captures_use_fixed_parameters
    (w : World) (device : option Z) (inputs : list console) (st : State)
    (e : event) :
  In e (calls is_capture (snd (main_loop w device inputs st))) ->
  In e (calls is_capture st) \/ e = EvRec 160000 16000 1 device.
Proof.
  destruct (emits_fixed_capture_loop w device inputs st)
    as (tail & Ht & Hall).
  unfold calls. rewrite Ht, List.filter_app, in_app_iff.
  intros [Hin | Hin]; [left; exact Hin | right].
  apply filter_In in Hin as [Hin Hcap].
  rewrite forallb_forall in Hall. specialize (Hall e Hin).
  destruct e; try discriminate Hcap. simpl in Hall.
  repeat (apply andb_prop in Hall as [Hall ?]).
  apply bool_decide_eq_true_1 in H. f_equal; [lia | lia | lia | exact H].
Qed.

Lemma captures_use_fixed_parameters_witness :
  In (EvRec 160000 16000 1 (Some 1)) (calls is_capture (ready ∅))
  \/ EvRec 160000 16000 1 (Some 1) = EvRec 160000 16000 1 (Some 1).
Proof.
  apply (captures_use_fixed_parameters Worlds.france (Some 1)
           [Line "jarvis"; CtrlC] (ready ∅)).
  vm_compute. left. reflexivity.
Defined.

(** ** Turns that complete *)

Lemma pipeline_completed w path st text answer :
  whisper_model st = true ->
  whisper_transcribe w (trace st) path (fs st !! path) = Ok text ->
  generate_content w (trace st ++ [EvTranscribe path]) text = Ok (Ok answer) ->
  tts_say w (trace st ++ [EvTranscribe path; EvGenerate text])
    (PyStr.strip answer) = Ok tt ->
  tts_runAndWait w (trace st ++ [EvTranscribe path; EvGenerate text;
                                 EvSay (PyStr.strip answer)]) = Ok tt ->
  fst (pipeline w path st) = Ok tt
  /\ trace (snd (pipeline w path st))
     = trace st ++ [EvTranscribe path; EvGenerate text;
                    EvSay (PyStr.strip answer); EvRunAndWait]
  /\ stdout (snd (pipeline w path st))
     = stdout st ++ ["Transcribing with local Whisper...";
                     "You said: " +:+ text;
                     "[Jarvis Answer]: " +:+ PyStr.strip answer;
                     "[Jarvis]: " +:+ PyStr.strip answer].
Proof.
  intros Hm Ht Hg Hs Hr.
  unfold pipeline, transcribe_whisper_local, ask_gemini, speak, read_file,
    call, history.
  unfold_monad. simpl. rewrite Hm. simpl. rewrite Ht. simpl.
  rewrite <- ?app_assoc. simpl. rewrite Hg. simpl.
  rewrite <- ?app_assoc. simpl. rewrite Hs. simpl.
  rewrite <- ?app_assoc. simpl. rewrite Hr.
  repeat split.
Qed.

(** X14. A turn in which every stage returns goes back to waiting.  When
    transcription answers [text] for the artifact, inference answers
    [answer] for that text, and [say] and [runAndWait] return for the
    stripped answer, the turn makes exactly these calls after the capture,
    in this order, then removes the artifact; it prints the transcript and
    the stripped answer; and the loop goes on with the rest of the
    input. *)
Theorem completed_turn_returns_to_waiting
    (w : World) (device : option Z) (ev : console) (rest : list console)
    (st : State) (path text answer : string) :
  whisper_model st = true ->
  fst (detect_wake_word ev st) = Ok true ->
  fst (record_audio w device 16000 1 10
         (snd (print "Wake word detected! " (listened ev st)))) = Ok path ->
  whisper_transcribe w (trace (captured w device (listened ev st))) path
    (fs (captured w device (listened ev st)) !! path) = Ok text ->
  generate_content w
    (trace (captured w device (listened ev st)) ++ [EvTranscribe path])
    text = Ok (Ok answer) ->
  tts_say w
    (trace (captured w device (listened ev st))
     ++ [EvTranscribe path; EvGenerate text])
    (PyStr.strip answer) = Ok tt ->
  tts_runAndWait w
    (trace (captured w device (listened ev st))
     ++ [EvTranscribe path; EvGenerate text; EvSay (PyStr.strip answer)])
  = Ok tt ->
  main_loop w device (ev :: rest) st
  = main_loop w device rest (snd (turn w device ev st))
  /\ trace (snd (turn w device ev st))
     = trace (captured w device (listened ev st))
       ++ [EvTranscribe path; EvGenerate text; EvSay (PyStr.strip answer);
           EvRunAndWait; EvRemove path]
  /\ stdout (snd (turn w device ev st))
     = stdout (captured w device (listened ev st))
       ++ ["Transcribing with local Whisper..."; "You said: " +:+ text;
           "[Jarvis Answer]: " +:+ PyStr.strip answer;
           "[Jarvis]: " +:+ PyStr.strip answer]
  /\ fs (snd (turn w device ev st)) !! path = None.
Proof.
  intros Hm H0 H1 Ht Hg Hs Hr.
  assert (Hm1 : whisper_model (captured w device (listened ev st)) = true)
    by (rewrite model_captured; exact Hm).
  destruct (pipeline_completed w path _ text answer Hm1 Ht Hg Hs Hr)
    as (Hok & Htr & Hout).
  rewrite main_loop_cons, (turn_woke _ _ _ _ _ H0 H1), try_finally_release.
  rewrite Hok. cbn [fst snd]. split; [reflexivity|].
  split; [|split; [|apply release_absent_after]].
  - rewrite release_run, fs_pipeline.
    destruct (captured_holds_artifact w device _ path H1) as [f Hf].
    rewrite Hf. cbn [trace]. rewrite Htr, <- app_assoc. reflexivity.
  - rewrite release_run.
    destruct (fs (snd (pipeline w path (captured w device (listened ev st))))
              !! path); exact Hout.
Qed.

Lemma completed_turn_returns_to_waiting_witness :
  main_loop padded None [Line "jarvis"; CtrlC] (ready ∅)
  = main_loop padded None [CtrlC]
      (snd (turn padded None (Line "jarvis") (ready ∅)))
  /\ trace (snd (turn padded None (Line "jarvis") (ready ∅)))
     = trace (captured padded None (listened (Line "jarvis") (ready ∅)))
       ++ [EvTranscribe Worlds.tmp0; EvGenerate "hello";
           EvSay (PyStr.strip ("  Paris. " +:+ nl)); EvRunAndWait;
           EvRemove Worlds.tmp0]
  /\ stdout (snd (turn padded None (Line "jarvis") (ready ∅)))
     = stdout (captured padded None (listened (Line "jarvis") (ready ∅)))
       ++ ["Transcribing with local Whisper..."; "You said: " +:+ "hello";
           "[Jarvis Answer]: " +:+ PyStr.strip ("  Paris. " +:+ nl);
           "[Jarvis]: " +:+ PyStr.strip ("  Paris. " +:+ nl)]
  /\ fs (snd (turn padded None (Line "jarvis") (ready ∅))) !! Worlds.tmp0
     = None.
Proof.
  apply (completed_turn_returns_to_waiting padded None (Line "jarvis")
           [CtrlC] (ready ∅) Worlds.tmp0 "hello" ("  Paris. " +:+ nl));
    vm_compute; reflexivity.
Defined.
